(** * uri_template: URI Templates (RFC 6570) -- variables and templates

    A shallow embedding of [uri_template/variable.py] and
    [uri_template/uritemplate.py].  Python strings are modelled by
    [string] (a sequence of 8-bit code points), Python [int] by [Z],
    raised exceptions by the error monad [Res]. *)

From Stdlib Require Import String Ascii List Bool ZArith Lia DecimalString.
Import ListNotations.

Local Open Scope string_scope.
Local Open Scope Z_scope.

(** ** Exceptions and the error monad *)

(** The exception classes of the package, plus the built-in [IndexError]
    that indexing an empty string raises. *)
Inductive exn : Type :=
| VariableInvalid (variable : string)
| ExpansionReserved (expansion : string)
| ExpansionInvalid (expansion : string)
| ExpansionFailed
| IndexError.

Inductive Res (A : Type) : Type :=
| Ok (a : A)
| Raise (e : exn).

Arguments Ok {A} a.
Arguments Raise {A} e.

Definition bind {A B : Type} (m : Res A) (k : A -> Res B) : Res B :=
  match m with
  | Ok a => k a
  | Raise e => Raise e
  end.

Notation "x <- m ;; k" := (bind m (fun x => k))
  (at level 61, m at next level, right associativity).
Notation "' p <- m ;; k" := (bind m (fun x => match x with p => k end))
  (at level 61, p pattern, m at next level, right associativity).

(** A list comprehension [[f(x) for x in xs]]: elements are evaluated in
    order and the first exception ends the evaluation. *)
Fixpoint comprehension {A B : Type} (f : A -> Res B) (xs : list A) : Res (list B) :=
  match xs with
  | [] => Ok []
  | x :: xs' => y <- f x ;; ys <- comprehension f xs' ;; Ok (y :: ys)
  end.

(** ** Python string primitives *)

Module Py.

(** [len(s)] *)
Definition len (s : string) : Z := Z.of_nat (String.length s).

(** [s.startswith(p)] *)
Fixpoint startswith (p s : string) : bool :=
  match p, s with
  | EmptyString, _ => true
  | String a p', String b s' => Ascii.eqb a b && startswith p' s'
  | String _ _, EmptyString => false
  end.

(** [sub in s] on strings: the substring test. *)
Fixpoint contains (sub s : string) : bool :=
  startswith sub s ||
  match s with
  | EmptyString => false
  | String _ s' => contains sub s'
  end.

(** [c in s] for a single code point [c]. *)
Definition char_in (c : ascii) (s : string) : bool :=
  contains (String c EmptyString) s.

(** [s[0:n]] *)
Fixpoint take (n : nat) (s : string) : string :=
  match n, s with
  | S n', String c s' => String c (take n' s')
  | _, _ => EmptyString
  end.

(** [s[n:]] *)
Fixpoint drop (n : nat) (s : string) : string :=
  match n, s with
  | S n', String _ s' => drop n' s'
  | _, _ => s
  end.

(** [s[:-n]] *)
Definition drop_last (n : nat) (s : string) : string :=
  take (String.length s - n) s.

(** [s[-n:]] *)
Definition take_last (n : nat) (s : string) : string :=
  drop (String.length s - n) s.

(** [s[i]] for [0 <= i], raising [IndexError] out of range. *)
Definition index (s : string) (i : nat) : Res ascii :=
  match String.get i s with
  | Some c => Ok c
  | None => Raise IndexError
  end.

(** [s[-1]] *)
Definition last (s : string) : Res ascii :=
  match s with
  | EmptyString => Raise IndexError
  | _ => index s (String.length s - 1)
  end.

(** [s.split(sep, 1)] for a one-character [sep] that occurs in [s]:
    the text before the first [sep] and the text after it.  When [sep]
    does not occur the second component is empty (callers test
    [sep in s] first). *)
Fixpoint split1 (sep : ascii) (s : string) : string * string :=
  match s with
  | EmptyString => (EmptyString, EmptyString)
  | String c s' =>
      if Ascii.eqb c sep then (EmptyString, s')
      else let '(l, r) := split1 sep s' in (String c l, r)
  end.

(** [s.split(sep)] for a one-character [sep]: always at least one piece. *)
Fixpoint split (sep : ascii) (s : string) : list string :=
  match s with
  | EmptyString => [EmptyString]
  | String c s' =>
      if Ascii.eqb c sep then EmptyString :: split sep s'
      else match split sep s' with
           | p :: ps => String c p :: ps
           | [] => [String c EmptyString]
           end
  end.

(** [sep.join(parts)] *)
Fixpoint join (sep : string) (parts : list string) : string :=
  match parts with
  | [] => EmptyString
  | [p] => p
  | p :: ps => p ++ sep ++ join sep ps
  end.

(** [int(s)] for a string of decimal digits. *)
Definition digit_value (c : ascii) : Z := Z.of_nat (nat_of_ascii c) - 48.

Fixpoint int_from (acc : Z) (s : string) : Z :=
  match s with
  | EmptyString => acc
  | String c s' => int_from (10 * acc + digit_value c) s'
  end.

Definition int (s : string) : Z := int_from 0 s.

(** [str(n)] for an integer. *)
Definition str (n : Z) : string := NilZero.string_of_int (Z.to_int n).

(** [for c in s: if not ok(c): raise e] *)
Fixpoint for_each_char (ok : ascii -> bool) (e : exn) (s : string) : Res unit :=
  match s with
  | EmptyString => Ok tt
  | String c s' => if ok c then for_each_char ok e s' else Raise e
  end.

End Py.

(** ** Character classes *)

Module Charset.

(** Modelled from the spec: [charset.py] is not among the sources; the
    letters are the ASCII letters. *)
Definition ALPHA : string := "ABCDEFGHIJKLMNOPQRSTUVWXYZabcdefghijklmnopqrstuvwxyz".

(** Modelled from the spec: [charset.py] is not among the sources; the
    digit classes are the decimal and the hexadecimal digits. *)
Definition DIGIT : string := "0123456789".
Definition HEX_DIGIT : string := "0123456789ABCDEFabcdef".

(** Modelled from the spec: [charset.py] is not among the sources; the
    legal first and continuation characters of a variable name are the
    letters, the digits and the underscore. *)
Definition VAR_START : string := ALPHA ++ DIGIT ++ "_".
Definition VAR_CHAR : string := ALPHA ++ DIGIT ++ "_".

End Charset.

(** ** variable.py *)

(** The class [Variable]; the record is spelled [variable] because
    [Variable] is a reserved word of the proof language. *)
Record variable : Type := mkVariable {
  name : string;
  max_length : Z;
  explode : bool;
  array : bool;
  default : option string
}.

Definition set_name (v : variable) (x : string) : variable :=
  mkVariable x (max_length v) (explode v) (array v) (default v).
Definition set_max_length (v : variable) (x : Z) : variable :=
  mkVariable (name v) x (explode v) (array v) (default v).
Definition set_explode (v : variable) (x : bool) : variable :=
  mkVariable (name v) (max_length v) x (array v) (default v).
Definition set_array (v : variable) (x : bool) : variable :=
  mkVariable (name v) (max_length v) (explode v) x (default v).
Definition set_default (v : variable) (x : option string) : variable :=
  mkVariable (name v) (max_length v) (explode v) (array v) x.

(** The modifier suffix re-synthesised for error messages (lines 78-79). *)
Definition modifier_suffix (self : variable) : string :=
  (if max_length self =? 0 then "" else ":" ++ Py.str (max_length self))
  ++ (if array self then "[]" else if explode self then "*" else "").

(** Lines 47-64: the prefix, explode and array modifiers.  Returns the
    remaining [var_spec] and the updated object. *)
Definition parse_modifier (var_spec : string) (self : variable) : Res (string * variable) :=
  if Py.contains ":" var_spec then
    let '(var_spec, max_length') := Py.split1 ":" var_spec in
    let bad := VariableInvalid (var_spec ++ ":" ++ max_length') in
    if (0 <? Py.len max_length') && (Py.len max_length' <? 4) then
      _ <- Py.for_each_char (fun digit => Py.char_in digit Charset.DIGIT) bad max_length' ;;
      let self := set_max_length self (Py.int max_length') in
      if max_length self =? 0 then Raise bad
      else Ok (var_spec, self)
    else Raise bad
  else
    c <- Py.last var_spec ;;
    if Ascii.eqb "*" c then
      Ok (Py.drop_last 1 var_spec, set_explode self true)
    else if String.eqb "[]" (Py.take_last 2 var_spec) then
      Ok (Py.drop_last 2 var_spec, set_explode (set_array self true) true)
    else Ok (var_spec, self).

(** Lines 66-80: the scan of the name.  [rest] is [var_spec[index:]];
    [None] is the [else] branch that raises. *)
Fixpoint scan_name (rest : string) (name : string) : option string :=
  match rest with
  | EmptyString => Some name
  | String codepoint tl =>
      let plain :=
        if Py.char_in codepoint Charset.VAR_CHAR
        then scan_name tl (name ++ String codepoint EmptyString)
        else None in
      match tl with
      | String h1 (String h2 tl') =>
          if Ascii.eqb "%" codepoint
             && Py.char_in h1 Charset.HEX_DIGIT
             && Py.char_in h2 Charset.HEX_DIGIT
          then scan_name tl' (name ++ String codepoint (String h1 (String h2 EmptyString)))
          else plain
      | _ => plain
      end
  end.

(** [Variable.__init__] *)
Definition Variable_init (var_spec : string) : Res variable :=
  let self := mkVariable "" 0 false false None in
  if negb (Py.contains (Py.take 1 var_spec) Charset.VAR_START) then
    Raise (VariableInvalid var_spec)
  else
    let '(var_spec, self) :=
      if Py.contains "=" var_spec then
        let '(l, r) := Py.split1 "=" var_spec in (l, set_default self (Some r))
      else (var_spec, self) in
    '(var_spec, self) <- parse_modifier var_spec self ;;
    match scan_name var_spec "" with
    | Some n => Ok (set_name self n)
    | None => Raise (VariableInvalid (var_spec ++ modifier_suffix self))
    end.

(** [Variable.__str__] *)
Definition Variable_str (self : variable) : string :=
  name self
  ++ (if max_length self =? 0 then "" else ":" ++ Py.str (max_length self))
  ++ (if explode self && negb (array self) then "*" else "")
  ++ (if array self then "[]" else "")
  ++ (match default self with Some d => "=" ++ d | None => "" end).


(** ** uritemplate.py *)

(** The ten expression classes of [expansions.py], by their operator. *)
Inductive Operator : Type :=
| SimpleExpansion
| ReservedExpansion
| FragmentExpansion
| LabelExpansion
| PathExpansion
| PathStyleExpansion
| FormStyleQueryExpansion
| FormStyleQueryContinuation
| CommaExpansion
| ReservedCommaExpansion.

Definition operator (op : Operator) : string :=
  match op with
  | SimpleExpansion => ""
  | ReservedExpansion => "+"
  | FragmentExpansion => "#"
  | LabelExpansion => "."
  | PathExpansion => "/"
  | PathStyleExpansion => ";"
  | FormStyleQueryExpansion => "?"
  | FormStyleQueryContinuation => "&"
  | CommaExpansion => ","
  | ReservedCommaExpansion => ",+"
  end.

(** A node of a template: a literal run, or a directive with its
    variable specifications. *)
Inductive Expansion : Type :=
| Literal (value : string)
| Expression (op : Operator) (vars : list variable).

(** Modelled from the spec: the constructors of the expression classes
    live in [expansions.py], which is not among the sources.  The body of
    the directive, after its leading operator, is split on [,] and each
    piece is handed to [Variable]. *)
Definition Expression_init (op : Operator) (expansion : string) : Res Expansion :=
  vars <- comprehension Variable_init
            (Py.split "," (Py.drop (String.length (operator op)) expansion)) ;;
  Ok (Expression op vars).

(** Modelled from the spec: [Expansion.variables] of [expansions.py]; a
    literal has no variable, a directive has its specifications in order
    of appearance. *)
Definition Expansion_variables (e : Expansion) : list variable :=
  match e with
  | Literal _ => []
  | Expression _ vars => vars
  end.

(** Modelled from the spec: [Expansion.__str__] of [expansions.py]; a
    node prints its own source syntax. *)
Definition Expansion_str (e : Expansion) : string :=
  match e with
  | Literal value => value
  | Expression op vars =>
      "{" ++ operator op ++ Py.join "," (map Variable_str vars) ++ "}"
  end.

(** [re.split(r'(\{[^\}]*\})', template)]: the text between the matches
    and the matches themselves, alternating, starting and ending with a
    (possibly empty) run of text.  A match starts at the first [{] that
    has a [}] after it and ends at the first such [}].  [text] is the run
    read so far; [body] is [Some b] once a [{] was read, [b] being what
    follows it. *)
Fixpoint re_split_from (s : string) (text : string) (body : option string) : list string :=
  match s with
  | EmptyString =>
      match body with
      | None => [text]
      | Some b => [text ++ "{" ++ b]
      end
  | String c s' =>
      match body with
      | None =>
          if Ascii.eqb c "{" then re_split_from s' text (Some "")
          else re_split_from s' (text ++ String c "") None
      | Some b =>
          if Ascii.eqb c "}" then text :: ("{" ++ b ++ "}") :: re_split_from s' "" None
          else re_split_from s' text (Some (b ++ String c ""))
      end
  end.

Definition re_split (template : string) : list string :=
  re_split_from template "" None.

(** [re.match('^([a-zA-Z0-9_]|%[0-9a-fA-F][0-9a-fA-F]).*$', expansion)]:
    [.] matches any code point but the newline, and [$] matches at the
    end or just before a newline that ends the string. *)
Definition is_word (c : ascii) : bool :=
  Py.char_in c "abcdefghijklmnopqrstuvwxyzABCDEFGHIJKLMNOPQRSTUVWXYZ0123456789_".
Definition is_hex (c : ascii) : bool :=
  Py.char_in c "0123456789abcdefABCDEF".
Definition newline : ascii := "010".

Fixpoint dots_to_end (s : string) : bool :=
  match s with
  | EmptyString => true
  | String c s' =>
      if Ascii.eqb c newline then
        match s' with EmptyString => true | _ => false end
      else dots_to_end s'
  end.

Definition re_match_simple (expansion : string) : bool :=
  match expansion with
  | String c rest =>
      if is_word c then dots_to_end rest
      else match rest with
           | String h1 (String h2 rest') =>
               Ascii.eqb c "%" && is_hex h1 && is_hex h2 && dots_to_end rest'
           | _ => false
           end
  | EmptyString => false
  end.

Record URITemplate : Type := mkURITemplate {
  expansions : list Expansion
}.

(** Lines 51-77: the dispatch on a part of the form [{...}]. *)
Definition parse_expression (part : string) : Res Expansion :=
  let expansion := Py.drop_last 1 (Py.drop 1 part) in
  if re_match_simple expansion then Expression_init SimpleExpansion expansion
  else
    c <- Py.index part 1 ;;
    if Ascii.eqb "+" c then Expression_init ReservedExpansion expansion
    else if Ascii.eqb "#" c then Expression_init FragmentExpansion expansion
    else if Ascii.eqb "." c then Expression_init LabelExpansion expansion
    else if Ascii.eqb "/" c then Expression_init PathExpansion expansion
    else if Ascii.eqb ";" c then Expression_init PathStyleExpansion expansion
    else if Ascii.eqb "?" c then Expression_init FormStyleQueryExpansion expansion
    else if Ascii.eqb "&" c then Expression_init FormStyleQueryContinuation expansion
    else if Ascii.eqb "," c then
      if 1 <? Py.len part then
        c2 <- Py.index part 2 ;;
        if Ascii.eqb "+" c2 then Expression_init ReservedCommaExpansion expansion
        else Expression_init CommaExpansion expansion
      else Expression_init CommaExpansion expansion
    else if Py.char_in c "=!@|" then Raise (ExpansionReserved part)
    else Raise (ExpansionInvalid part).

(** [a and b] when [b] may raise: [b] is evaluated only if [a] holds. *)
Definition and_then (a : bool) (b : Res bool) : Res bool :=
  if a then b else Ok false.

(** Lines 50-82: the body of the loop for one part; [None] when the part
    is empty and nothing is appended. *)
Definition parse_part (part : string) : Res (option Expansion) :=
  match part with
  | EmptyString => Ok None
  | String first _ =>
      braces <- and_then (Ascii.eqb "{" first)
                  (last <- Py.last part ;; Ok (Ascii.eqb "}" last)) ;;
      if braces then
        e <- parse_expression part ;; Ok (Some e)
      else if negb (Py.contains "{" part) && negb (Py.contains "}" part) then
        Ok (Some (Literal part))
      else Raise (ExpansionInvalid part)
  end.

(** Lines 49-82: the loop over the parts, appending to [self.expansions]. *)
Fixpoint parse_parts (parts : list string) (expansions : list Expansion)
  : Res (list Expansion) :=
  match parts with
  | [] => Ok expansions
  | part :: parts' =>
      r <- parse_part part ;;
      match r with
      | Some e => parse_parts parts' (expansions ++ [e])
      | None => parse_parts parts' expansions
      end
  end.

(** [URITemplate.__init__] *)
Definition URITemplate_init (template : string) : Res URITemplate :=
  expansions <- parse_parts (re_split template) [] ;;
  Ok (mkURITemplate expansions).

(** [URITemplate.__str__] *)
Definition URITemplate_str (self : URITemplate) : string :=
  Py.join "" (map Expansion_str (expansions self)).


(** *** The value environment *)

(** The keyword arguments of [expand] and [partial]: a dictionary from
    variable names to a scalar, a sequence or an associative array. *)
Inductive Value : Type :=
| Scalar (s : string)
| Sequence (items : list string)
| Mapping (entries : list (string * string)).

Definition Values : Type := list (string * Value).

(** [values.get(name)] *)
Definition Values_get (values : Values) (n : string) : option Value :=
  option_map snd (find (fun kv => String.eqb (fst kv) n) values).

(** Modelled from the spec: the test of [expansions.py], which is not
    among the sources, for a binding that is structurally invalid.
    RFC 6570, which the library implements, applies a prefix length to
    scalars only: an associative mapping bound to a variable with a
    prefix length cannot be rendered. *)
Definition structurally_invalid (values : Values) (v : variable) : bool :=
  (0 <? max_length v)
  && match Values_get values (name v) with
     | Some (Mapping _) => true
     | _ => false
     end.

(** The variable has no value in the environment. *)
Definition unbound (values : Values) (v : variable) : bool :=
  match Values_get values (name v) with
  | Some _ => false
  | None => true
  end.

(** Modelled from the spec: [Expansion.partial] of [expansions.py], which
    is not among the sources.  A literal returns its text unchanged.  A
    directive with a structurally invalid binding raises
    [ExpansionFailed], the exception that [URITemplate.partial] catches
    (lines 114-115).  A directive none of whose variables is bound is
    emitted again in its own syntax.  The text of a directive with bound
    variables is the work of the encoding algorithms, which are left as
    the parameter [substitute]. *)
Definition Expansion_partial_model
  (substitute : Operator -> list variable -> Values -> string)
  (e : Expansion) (values : Values) : Res string :=
  match e with
  | Literal value => Ok value
  | Expression op vars =>
      if existsb (structurally_invalid values) vars then Raise ExpansionFailed
      else if forallb (unbound values) vars then Ok (Expansion_str e)
      else Ok (substitute op vars values)
  end.

(** *** [collections.OrderedDict] *)

(** An insertion-ordered dictionary: an association list without
    repeated keys.  [d[k] = v] replaces the value of a key that is
    present, where it stands, and appends a key that is not. *)
Module OrderedDict.

Definition t (V : Type) : Type := list (string * V).

Definition empty {V : Type} : t V := [].

Fixpoint setitem {V : Type} (d : t V) (k : string) (v : V) : t V :=
  match d with
  | [] => [(k, v)]
  | (k', v') :: d' =>
      if String.eqb k' k then (k', v) :: d'
      else (k', v') :: setitem d' k v
  end.

Definition keys {V : Type} (d : t V) : list string := map fst d.
Definition values {V : Type} (d : t V) : list V := map snd d.

(** [d.get(k)] *)
Definition getitem {V : Type} (d : t V) (k : string) : option V :=
  option_map snd (find (fun kv => String.eqb (fst kv) k) d).

End OrderedDict.

(** Lines 87-90 and 96-99: the two nested loops that fill [vars]. *)
Definition collect_variables (self : URITemplate) : OrderedDict.t variable :=
  fold_left
    (fun vars expansion =>
       fold_left (fun vars var => OrderedDict.setitem vars (name var) var)
                 (Expansion_variables expansion) vars)
    (expansions self) OrderedDict.empty.

(** [URITemplate.variables] *)
Definition URITemplate_variables (self : URITemplate) : list variable :=
  OrderedDict.values (collect_variables self).

(** [URITemplate.variable_names] *)
Definition URITemplate_variable_names (self : URITemplate) : list string :=
  map (fun var => name var) (OrderedDict.values (collect_variables self)).

(** [try: body  except ExpansionFailed: return None], the value of
    [body] being handed to [k]. *)
Definition try_except_ExpansionFailed {A B : Type}
  (body : Res A) (k : A -> Res (option B)) : Res (option B) :=
  match body with
  | Ok a => k a
  | Raise ExpansionFailed => Ok None
  | Raise e => Raise e
  end.

(** [[x for x in xs if x is not None]] *)
Fixpoint not_None {A : Type} (xs : list (option A)) : list A :=
  match xs with
  | [] => []
  | Some x :: xs' => x :: not_None xs'
  | None :: xs' => not_None xs'
  end.

(** [s == r] for a string [s] and an optional string [r]. *)
Definition str_eq_optional (s : string) (r : option string) : bool :=
  match r with
  | Some s' => String.eqb s s'
  | None => false
  end.

Section Template.

(** The expansion algorithms of the nodes, [Expansion.expand] and
    [Expansion.partial], are in [expansions.py], which is not among the
    sources: the template operations are stated over any of them. *)
Variable Expansion_expand : Expansion -> Values -> Res (option string).
Variable Expansion_partial : Expansion -> Values -> Res string.

(** [URITemplate.expand] *)
Definition URITemplate_expand (self : URITemplate) (kwargs : Values)
  : Res (option string) :=
  try_except_ExpansionFailed
    (comprehension (fun expansion => Expansion_expand expansion kwargs)
                   (expansions self))
    (fun expanded => Ok (Some (Py.join "" (not_None expanded)))).

(** [URITemplate.partial] *)
Definition URITemplate_partial (self : URITemplate) (kwargs : Values)
  : Res (option URITemplate) :=
  try_except_ExpansionFailed
    (comprehension (fun expansion => Expansion_partial expansion kwargs)
                   (expansions self))
    (fun expanded =>
       t <- URITemplate_init (Py.join "" expanded) ;; Ok (Some t)).

(** [URITemplate.expanded] *)
Definition URITemplate_expanded (self : URITemplate) : Res bool :=
  let s := URITemplate_str self in
  r <- URITemplate_expand self [] ;;
  Ok (str_eq_optional s r).

End Template.

(** * Specification *)

(** The notions in which the properties below are stated. *)

(** ** Numerals *)

(** Every code point of [s] passes the test [p]. *)
Fixpoint all_chars (p : ascii -> bool) (s : string) : bool :=
  match s with
  | EmptyString => true
  | String c s' => p c && all_chars p s'
  end.

(** The decimal digits by their code points, [0] = 48 ... [9] = 57. *)
Definition is_decimal_digit (c : ascii) : bool :=
  (48 <=? nat_of_ascii c)%nat && (nat_of_ascii c <=? 57)%nat.

(** The value of a numeral read positionally: the digit at distance [k]
    from the end counts [10 ^ k]. *)
Fixpoint decimal_value (s : string) : Z :=
  match s with
  | EmptyString => 0
  | String c s' =>
      Py.digit_value c * 10 ^ Z.of_nat (String.length s') + decimal_value s'
  end.

(** A numeral is canonical when it does not start with the digit zero. *)
Definition canonical_numeral (s : string) : bool :=
  match s with
  | String c _ => negb (Ascii.eqb c "0")
  | EmptyString => false
  end.

(** ** Variable specifications *)

(** What the prefix, explode and array modifiers leave in the object. *)
Definition modifiers_consistent (v : variable) : Prop :=
  (0 < max_length v -> explode v = false) /\ (array v = true -> explode v = true).

(** The specification with its default removed: the text before the
    first [=], or all of it when there is none. *)
Definition before_default (var_spec : string) : string :=
  if Py.contains "=" var_spec then fst (Py.split1 "=" var_spec) else var_spec.

Definition default_of (var_spec : string) : option string :=
  if Py.contains "=" var_spec then Some (snd (Py.split1 "=" var_spec)) else None.

(** A prefix length as the grammar of the library reads it: one to three
    decimal digits whose value is not zero. *)
Definition well_formed_prefix (s : string) : bool :=
  (1 <=? String.length s)%nat && (String.length s <=? 3)%nat
  && all_chars is_decimal_digit s
  && negb (decimal_value s =? 0).

(** ** The grammar of variable specifications *)

(** A name: a sequence of name characters and of percent-escapes, [%]
    followed by two hexadecimal digits. *)
Inductive varname : string -> Prop :=
| varname_empty : varname ""
| varname_char (c : ascii) (s : string) :
    Py.char_in c Charset.VAR_CHAR = true -> varname s -> varname (String c s)
| varname_escape (h1 h2 : ascii) (s : string) :
    Py.char_in h1 Charset.HEX_DIGIT = true ->
    Py.char_in h2 Charset.HEX_DIGIT = true ->
    varname s -> varname (String "%" (String h1 (String h2 s))).

(** A name that may open a specification: it is not empty and its first
    character is a legal start character. *)
Definition legal_name (n : string) : Prop :=
  varname n /\
  exists c rest, n = String c rest /\ Py.char_in c Charset.VAR_START = true.

(** What may follow the name: nothing, a prefix length, the explode
    mark or the array mark. *)
Inductive Modifier : Type :=
| NoModifier
| Prefix (digits : string)
| Explode
| Array.

Definition modifier_text (m : Modifier) : string :=
  match m with
  | NoModifier => ""
  | Prefix digits => ":" ++ digits
  | Explode => "*"
  | Array => "[]"
  end.

Definition well_formed_modifier (m : Modifier) : Prop :=
  match m with
  | Prefix digits => well_formed_prefix digits = true
  | _ => True
  end.

Definition default_text (d : option string) : string :=
  match d with
  | Some x => "=" ++ x
  | None => ""
  end.

(** The text of a specification, and the object it stands for. *)
Definition spec_text (n : string) (m : Modifier) (d : option string) : string :=
  n ++ modifier_text m ++ default_text d.

Definition spec_variable (n : string) (m : Modifier) (d : option string) : variable :=
  mkVariable n
    (match m with Prefix digits => decimal_value digits | _ => 0 end)
    (match m with Explode | Array => true | _ => false end)
    (match m with Array => true | _ => false end)
    d.

(** The modifier as [Variable.__str__] prints it. *)
Definition printed_modifier (m : Modifier) : Modifier :=
  match m with
  | Prefix digits => Prefix (Py.str (decimal_value digits))
  | _ => m
  end.

(** The characters that a name is made of. *)
Definition name_char (c : ascii) : bool :=
  Py.char_in c Charset.VAR_CHAR || Ascii.eqb c "%" || Py.char_in c Charset.HEX_DIGIT.

(** The first character of the specification passes the test of line 41. *)
Definition legal_start (var_spec : string) : bool :=
  Py.contains (Py.take 1 var_spec) Charset.VAR_START.

(** ** Directives *)

(** A directive is [{], a body and [}]. *)
Definition directive (body : string) : string := "{" ++ body ++ "}".

(** The operators that RFC 6570 reserves for future use. *)
Definition reserved_operator (c : ascii) : bool := Py.char_in c "=!@|".

(** The node of a run of text: none when the text is empty. *)
Definition literal_nodes (text : string) : list Expansion :=
  match text with
  | EmptyString => []
  | _ => [Literal text]
  end.

(** The first character of the body selects no expansion: it is none of
    the operators and none of the reserved ones. *)
Definition no_operator (body : string) : Prop :=
  match body with
  | EmptyString => True
  | String c _ => Py.char_in c "+#./;?&,=!@|" = false
  end.

(** ** The variables of a template *)

(** The specifications of a template in the order of the text. *)
Definition all_variables (self : URITemplate) : list variable :=
  flat_map Expansion_variables (expansions self).

(** [x] is among the names of [l]. *)
Definition mem (x : string) (l : list string) : bool := existsb (String.eqb x) l.

(** The names of a sequence, each once, in the order of their first
    occurrence: a sequence and the set of the names already seen. *)
Fixpoint first_occurrences_from (seen : list string) (l : list string) : list string :=
  match l with
  | [] => []
  | x :: l' =>
      if mem x seen then first_occurrences_from seen l'
      else x :: first_occurrences_from (x :: seen) l'
  end.

Definition first_occurrences (l : list string) : list string :=
  first_occurrences_from [] l.

(** The first and the last specification of a given name. *)
Definition first_named (n : string) (vs : list variable) : option variable :=
  find (fun v => String.eqb (name v) n) vs.

Definition last_named (n : string) (vs : list variable) : option variable :=
  find (fun v => String.eqb (name v) n) (rev vs).

(** The two nested loops are one loop over all the specifications. *)
Definition fill (d : OrderedDict.t variable) (vs : list variable) : OrderedDict.t variable :=
  fold_left (fun vars var => OrderedDict.setitem vars (name var) var) vs d.

(** Every value stands under its own name. *)
Definition keyed_by_name (d : OrderedDict.t variable) : Prop :=
  Forall (fun kv => name (snd kv) = fst kv) d.

(** ** The outcomes of the nodes *)

(** The results of the nodes put together in order; a node without a
    result contributes nothing. *)
Fixpoint concatenation (results : list (option string)) : string :=
  match results with
  | [] => ""
  | Some s :: results' => s ++ concatenation results'
  | None :: results' => concatenation results'
  end.

(** The nodes of [nodes] all return, with the values [rs], in order. *)
Definition all_return {A : Type} (f : Expansion -> Res A)
  (nodes : list Expansion) (rs : list A) : Prop :=
  Forall2 (fun e r => f e = Ok r) nodes rs.

(** The node [e] of [nodes] raises [x], the nodes before it return. *)
Definition first_raise {A : Type} (f : Expansion -> Res A)
  (nodes : list Expansion) (x : exn) : Prop :=
  exists before e after rs,
    nodes = (before ++ e :: after)%list /\ all_return f before rs /\ f e = Raise x.


(** A node operation that instantiates the statement on [expand] in
    the example: a literal expands to its own text, and a directive
    raises [ExpansionFailed], which is the one exception that the
    template catches.  It stands for no algorithm of the library. *)
Definition literal_expand (e : Expansion) (kwargs : Values) : Res (option string) :=
  match e with
  | Literal value => Ok (Some value)
  | Expression _ _ => Raise ExpansionFailed
  end.


(** A value environment that binds [keys] to an associative mapping. *)
Definition keys_values : Values :=
  [("keys", Mapping [("semi", ";"); ("dot", "."); ("comma", ",")])].

(** The text does not begin with the digit zero. *)
Definition no_leading_zero (s : string) : bool :=
  match s with
  | String c _ => negb (Ascii.eqb c "0")
  | EmptyString => true
  end.

(** The prefix length of the specification, well formed or not, does
    not begin with the digit zero. *)
Definition prefix_without_leading_zero (var_spec : string) : Prop :=
  Py.contains ":" (before_default var_spec) = true ->
  no_leading_zero (snd (Py.split1 ":" (before_default var_spec))) = true.

(** * Properties *)

(** ** The error monad and the string primitives *)

Lemma bind_Ok {A B : Type} (m : Res A) (k : A -> Res B) (b : B) :
  bind m k = Ok b -> exists a, m = Ok a /\ k a = Ok b.
Proof. destruct m as [a|e]; simpl; [eauto | discriminate]. Qed.

Lemma bind_Raise {A B : Type} (m : Res A) (k : A -> Res B) (e : exn) :
  bind m k = Raise e -> m = Raise e \/ exists a, m = Ok a /\ k a = Raise e.
Proof. destruct m as [a|e']; simpl; [eauto | intros [= ->]; auto]. Qed.

(** Case analysis on the conditions a definition branches on. *)
Ltac break_if :=
  match goal with
  | |- context [if ?b then _ else _] => destruct b eqn:?
  | H : context [if ?b then _ else _] |- _ => destruct b eqn:?
  end.

Ltac break_res :=
  match goal with
  | H : bind _ _ = Ok _ |- _ =>
      apply bind_Ok in H; destruct H as (? & ? & H)
  | H : Ok _ = Ok _ |- _ => injection H as H; subst
  | H : Raise _ = Ok _ |- _ => discriminate H
  | H : Ok _ = Raise _ |- _ => discriminate H
  end.

Lemma for_each_char_all ok e s :
  Py.for_each_char ok e s = (if all_chars ok s then Ok tt else Raise e).
Proof.
  induction s as [|c s IH]; simpl; [reflexivity|].
  destruct (ok c); simpl; [exact IH | reflexivity].
Qed.

Lemma char_in_DIGIT c : Py.char_in c Charset.DIGIT = is_decimal_digit c.
Proof.
  destruct c as [[] [] [] [] [] [] [] []]; reflexivity.
Qed.

Lemma decimal_digit_cases c :
  is_decimal_digit c = true ->
  In c ["0"; "1"; "2"; "3"; "4"; "5"; "6"; "7"; "8"; "9"]%char.
Proof.
  destruct c as [[] [] [] [] [] [] [] []]; try discriminate; intros _; simpl; tauto.
Qed.

Ltac digit_case H :=
  apply decimal_digit_cases in H; simpl in H;
  repeat (destruct H as [<-|H]); [..|destruct H].

Lemma int_from_decimal_value s : forall acc,
  Py.int_from acc s = acc * 10 ^ Z.of_nat (String.length s) + decimal_value s.
Proof.
  induction s as [|c s IH]; intros acc; simpl String.length.
  - simpl. lia.
  - cbn [Py.int_from decimal_value]. rewrite IH.
    rewrite Nat2Z.inj_succ, Z.pow_succ_r by lia. ring.
Qed.

Lemma int_decimal_value s : Py.int s = decimal_value s.
Proof. unfold Py.int. rewrite int_from_decimal_value. lia. Qed.

Lemma length_window (n : nat) :
  (0 <? Z.of_nat n) && (Z.of_nat n <? 4) = ((1 <=? n)%nat && (n <=? 3)%nat).
Proof.
  destruct (Z.ltb_spec 0 (Z.of_nat n)), (Z.ltb_spec (Z.of_nat n) 4),
    (Nat.leb_spec 1 n), (Nat.leb_spec n 3); simpl; try reflexivity; lia.
Qed.

Lemma append_assoc (a b c : string) : (a ++ b) ++ c = a ++ (b ++ c).
Proof. induction a as [|x a IH]; simpl; [reflexivity | now rewrite IH]. Qed.

Lemma append_empty_r (a : string) : a ++ "" = a.
Proof. induction a as [|x a IH]; simpl; [reflexivity | now rewrite IH]. Qed.

Lemma length_append (a b : string) :
  String.length (a ++ b) = (String.length a + String.length b)%nat.
Proof. induction a as [|x a IH]; simpl; [reflexivity | now rewrite IH]. Qed.

Lemma get_append_last (a : string) (c : ascii) :
  String.get (String.length a) (a ++ String c "") = Some c.
Proof. induction a as [|x a IH]; simpl; [reflexivity | exact IH]. Qed.

Lemma last_append (a : string) (c : ascii) : Py.last (a ++ String c "") = Ok c.
Proof.
  unfold Py.last, Py.index.
  replace (String.length (a ++ String c "") - 1)%nat with (String.length a)
    by (rewrite length_append; simpl; lia).
  rewrite get_append_last. destruct a; reflexivity.
Qed.

Lemma take_append (a b : string) : Py.take (String.length a) (a ++ b) = a.
Proof. induction a as [|x a IH]; simpl; [now destruct b | now rewrite IH]. Qed.

Lemma drop_last_append (a : string) (c : ascii) :
  Py.drop_last 1 (a ++ String c "") = a.
Proof.
  unfold Py.drop_last.
  replace (String.length (a ++ String c "") - 1)%nat with (String.length a)
    by (rewrite length_append; simpl; lia).
  apply take_append.
Qed.

Lemma contains_char c x s :
  Py.contains (String c "") (String x s)
  = Ascii.eqb c x || Py.contains (String c "") s.
Proof. cbn [Py.contains Py.startswith]. now rewrite andb_true_r. Qed.

Lemma split1_append sep s :
  Py.contains (String sep "") s = true ->
  s = fst (Py.split1 sep s) ++ String sep (snd (Py.split1 sep s)).
Proof.
  induction s as [|x s IH]; [discriminate|].
  rewrite contains_char. cbn [Py.split1]. rewrite (Ascii.eqb_sym x sep).
  destruct (Ascii.eqb_spec sep x) as [->|Hne]; simpl; [reflexivity|].
  intros H. destruct (Py.split1 sep s) as [l r]. simpl in *.
  now rewrite <- (IH H).
Qed.

Lemma take_drop n s : Py.take n s ++ Py.drop n s = s.
Proof.
  revert s. induction n as [|n IH]; intros s; [reflexivity|].
  destruct s as [|c s]; simpl; [reflexivity | now rewrite IH].
Qed.

Lemma drop_last_take_last n s : Py.drop_last n s ++ Py.take_last n s = s.
Proof. apply take_drop. Qed.

Lemma drop_get i s c :
  String.get i s = Some c -> String.length s = S i -> Py.drop i s = String c "".
Proof.
  revert s. induction i as [|i IH]; intros [|x s]; simpl; try discriminate.
  - intros [= ->] H. destruct s; [reflexivity | discriminate].
  - intros Hg [= Hl]. now apply IH.
Qed.

Lemma last_drop_last s c : Py.last s = Ok c -> s = Py.drop_last 1 s ++ String c "".
Proof.
  unfold Py.last, Py.index. destruct s as [|x s]; [discriminate|].
  destruct (String.get _ _) as [c'|] eqn:Hg; [|discriminate].
  intros [= ->]. rewrite <- (drop_last_take_last 1 (String x s)) at 1.
  f_equal. unfold Py.take_last. apply drop_get; [exact Hg|]. simpl. lia.
Qed.

(** ** [Variable]: the modifiers *)

Lemma parse_modifier_consistent var_spec default' var_spec' self' :
  parse_modifier var_spec (mkVariable "" 0 false false default') = Ok (var_spec', self') ->
  modifiers_consistent self' /\ name self' = "" /\ default self' = default'.
Proof.
  unfold parse_modifier, modifiers_consistent. intros H.
  destruct (Py.split1 ":" var_spec) as [l r].
  repeat (first [break_res | break_if]);
    cbn in *; repeat split; try congruence; try lia.
Qed.

Lemma Variable_init_fields var_spec v :
  Variable_init var_spec = Ok v ->
  exists var_spec' self',
    parse_modifier
      (if Py.contains "=" var_spec then fst (Py.split1 "=" var_spec) else var_spec)
      (mkVariable "" 0 false false
         (if Py.contains "=" var_spec then Some (snd (Py.split1 "=" var_spec)) else None))
    = Ok (var_spec', self')
    /\ scan_name var_spec' "" = Some (name v)
    /\ max_length v = max_length self' /\ explode v = explode self'
    /\ array v = array self' /\ default v = default self'.
Proof.
  unfold Variable_init. intros H.
  destruct (negb _); [discriminate|].
  destruct (Py.contains "=" var_spec); [destruct (Py.split1 "=" var_spec) as [l r]|];
    cbn [fst snd set_default name max_length explode array default] in *;
    apply bind_Ok in H; destruct H as ([vs' self'] & Hm & H);
    destruct (scan_name vs' "") eqn:Hs; try discriminate;
    injection H as <-; exists vs', self'; cbn;
    repeat split; solve [reflexivity | exact Hm | exact Hs].
Qed.

(** C7: every [Variable] that is constructed without raising has
    [max_length] and [explode] never both set ([max_length > 0] implies
    that [explode] is false), and [array] implies [explode]. *)
Theorem Variable_init_invariants (var_spec : string) (v : variable) :
  Variable_init var_spec = Ok v ->
  (0 < max_length v -> explode v = false) /\ (array v = true -> explode v = true).
Proof.
  intros H. apply Variable_init_fields in H.
  destruct H as (vs' & self' & Hm & _ & Hl & He & Ha & _).
  apply parse_modifier_consistent in Hm. destruct Hm as [[H1 H2] _].
  rewrite Hl, He, Ha. auto.
Qed.

Lemma Variable_init_invariants_witness :
  exists v, Variable_init "list*" = Ok v /\
            (0 < max_length v -> explode v = false) /\
            (array v = true -> explode v = true).
Proof.
  exists (mkVariable "list" 0 true false None).
  split; [reflexivity|].
  apply (Variable_init_invariants "list*"). reflexivity.
Defined.

Lemma Variable_init_unfold var_spec :
  Variable_init var_spec =
  if negb (Py.contains (Py.take 1 var_spec) Charset.VAR_START) then
    Raise (VariableInvalid var_spec)
  else
    '(var_spec', self) <- parse_modifier (before_default var_spec)
                            (mkVariable "" 0 false false (default_of var_spec)) ;;
    match scan_name var_spec' "" with
    | Some n => Ok (set_name self n)
    | None => Raise (VariableInvalid (var_spec' ++ modifier_suffix self))
    end.
Proof.
  unfold Variable_init, before_default, default_of.
  destruct (negb _); [reflexivity|].
  destruct (Py.contains "=" var_spec); [|reflexivity].
  destruct (Py.split1 "=" var_spec); reflexivity.
Qed.

Lemma parse_modifier_prefix var_spec self :
  Py.contains ":" var_spec = true ->
  parse_modifier var_spec self =
  let '(l, r) := Py.split1 ":" var_spec in
  if well_formed_prefix r
  then Ok (l, set_max_length self (decimal_value r))
  else Raise (VariableInvalid (l ++ ":" ++ r)).
Proof.
  intros Hc. unfold parse_modifier. rewrite Hc.
  destruct (Py.split1 ":" var_spec) as [l r].
  unfold well_formed_prefix, Py.len.
  rewrite for_each_char_all.
  replace (all_chars (fun digit => Py.char_in digit Charset.DIGIT) r)
    with (all_chars is_decimal_digit r)
    by (induction r as [|c r IH]; simpl; [|rewrite char_in_DIGIT, IH]; reflexivity).
  rewrite int_decimal_value, length_window.
  destruct ((1 <=? String.length r)%nat && (String.length r <=? 3)%nat);
    cbn [andb]; [|reflexivity].
  destruct (all_chars is_decimal_digit r); cbn [bind andb]; [|reflexivity].
  cbn [set_max_length max_length].
  destruct (decimal_value r =? 0); reflexivity.
Qed.

(** C6: when the specification, its default split off at the first [=],
    contains [:], parsing succeeds only if the text after the first [:]
    is one to three decimal digits whose value is not zero, and then
    [max_length] is that value; with any other suffix the constructor
    raises [VariableInvalid]. *)
Theorem Variable_init_prefix (var_spec : string) :
  Py.contains ":" (before_default var_spec) = true ->
  let suffix := snd (Py.split1 ":" (before_default var_spec)) in
  (forall v, Variable_init var_spec = Ok v ->
             well_formed_prefix suffix = true /\ max_length v = decimal_value suffix)
  /\ (well_formed_prefix suffix = false ->
      exists variable, Variable_init var_spec = Raise (VariableInvalid variable)).
Proof.
  intros Hc suffix. subst suffix.
  rewrite Variable_init_unfold, (parse_modifier_prefix _ _ Hc).
  destruct (Py.split1 ":" (before_default var_spec)) as [l r]. cbn [snd].
  destruct (negb _).
  - split; [discriminate|]. eauto.
  - destruct (well_formed_prefix r); cbn [bind].
    + split; [|discriminate].
      intros v Hv. destruct (scan_name l ""); [|discriminate].
      injection Hv as <-. split; reflexivity.
    + split; [discriminate|]. eauto.
Qed.

Lemma Variable_init_prefix_witness :
  exists v, Variable_init "var:030=x:y" = Ok v /\ max_length v = 30.
Proof.
  exists (mkVariable "var" 30 false false (Some "x:y")).
  split; [reflexivity|].
  apply (proj1 (Variable_init_prefix "var:030=x:y" eq_refl)
               (mkVariable "var" 30 false false (Some "x:y")) eq_refl).
Defined.

(** ** [Variable]: the string form *)

(** The scan copies the specification into the name. *)
Lemma scan_name_copies (k : nat) : forall rest acc n,
  (String.length rest <= k)%nat ->
  scan_name rest acc = Some n -> n = acc ++ rest.
Proof.
  induction k as [|k IH]; intros rest acc n Hk.
  - destruct rest; [|simpl in Hk; lia]. simpl. intros [= <-].
    now rewrite append_empty_r.
  - destruct rest as [|c tl]; [simpl; intros [= <-]; now rewrite append_empty_r|].
    assert (Hplain :
      (if Py.char_in c Charset.VAR_CHAR
       then scan_name tl (acc ++ String c "") else None) = Some n ->
      n = acc ++ String c tl).
    { destruct (Py.char_in c Charset.VAR_CHAR); [|discriminate].
      intros H. apply IH in H; [|simpl in Hk; lia].
      now rewrite H, append_assoc. }
    cbn [scan_name]. destruct tl as [|h1 [|h2 tl']]; try exact Hplain.
    destruct (_ && _ && _); [|exact Hplain].
    intros H. apply IH in H; [|simpl in Hk; lia].
    now rewrite H, append_assoc.
Qed.

Lemma str_int_canonical r :
  well_formed_prefix r = true -> canonical_numeral r = true ->
  Py.str (decimal_value r) = r.
Proof.
  unfold well_formed_prefix. intros H Hc.
  apply andb_prop in H. destruct H as [H _].
  apply andb_prop in H. destruct H as [H Hd].
  apply andb_prop in H. destruct H as [_ Hl].
  destruct r as [|c1 [|c2 [|c3 [|c4 r]]]]; try discriminate.
  - cbn [all_chars] in Hd. rewrite andb_true_r in Hd.
    digit_case Hd; first [discriminate Hc | reflexivity].
  - cbn [all_chars] in Hd. rewrite andb_true_r in Hd.
    apply andb_prop in Hd. destruct Hd as [H1 H2].
    digit_case H1; try discriminate Hc; digit_case H2; reflexivity.
  - cbn [all_chars] in Hd. rewrite andb_true_r in Hd.
    apply andb_prop in Hd. destruct Hd as [H1 Hd].
    apply andb_prop in Hd. destruct Hd as [H2 H3].
    digit_case H1; try discriminate Hc; digit_case H2; digit_case H3; reflexivity.
Qed.

Lemma before_default_append var_spec :
  var_spec
  = before_default var_spec
    ++ match default_of var_spec with Some d => "=" ++ d | None => "" end.
Proof.
  unfold before_default, default_of.
  destruct (Py.contains "=" var_spec) eqn:H.
  - now apply split1_append.
  - now rewrite append_empty_r.
Qed.

Lemma parse_modifier_str var_spec default' var_spec' self' :
  parse_modifier var_spec (mkVariable "" 0 false false default') = Ok (var_spec', self') ->
  (Py.contains ":" var_spec = true ->
   canonical_numeral (snd (Py.split1 ":" var_spec)) = true) ->
  var_spec' ++ (if max_length self' =? 0 then "" else ":" ++ Py.str (max_length self'))
            ++ (if explode self' && negb (array self') then "*" else "")
            ++ (if array self' then "[]" else "")
  = var_spec.
Proof.
  intros H Hcanon. destruct (Py.contains ":" var_spec) eqn:Hc.
  - rewrite (parse_modifier_prefix _ _ Hc) in H.
    pose proof (split1_append ":" var_spec Hc) as Hs.
    specialize (Hcanon eq_refl).
    destruct (Py.split1 ":" var_spec) as [l r]. cbn [fst snd] in *.
    destruct (well_formed_prefix r) eqn:Hw; [|discriminate].
    injection H as <- <-. cbn [set_max_length max_length explode array andb].
    rewrite (str_int_canonical r Hw Hcanon).
    unfold well_formed_prefix in Hw. apply andb_prop in Hw. destruct Hw as [_ Hz].
    apply negb_true_iff in Hz. rewrite Hz.
    rewrite Hs. cbn [append]. now rewrite !append_empty_r.
  - unfold parse_modifier in H. rewrite Hc in H.
    apply bind_Ok in H. destruct H as (c & Hl & H).
    destruct (Ascii.eqb_spec "*" c) as [<-|_].
    + injection H as <- <-. cbn. now rewrite <- last_drop_last.
    + destruct (String.eqb_spec "[]" (Py.take_last 2 var_spec)) as [He|_].
      * injection H as <- <-. cbn. rewrite He. apply drop_last_take_last.
      * injection H as <- <-. cbn. now rewrite append_empty_r.
Qed.

(** X1: the string form of a parsed specification is the specification,
    provided its prefix length, when it has one, does not begin with the
    digit zero. *)
Lemma Variable_str_roundtrip (var_spec : string) (v : variable) :
  Variable_init var_spec = Ok v ->
  (Py.contains ":" (before_default var_spec) = true ->
   canonical_numeral (snd (Py.split1 ":" (before_default var_spec))) = true) ->
  Variable_str v = var_spec.
Proof.
  intros H Hcanon. rewrite Variable_init_unfold in H.
  destruct (negb _); [discriminate|].
  apply bind_Ok in H. destruct H as ([vs' self'] & Hm & H).
  destruct (scan_name vs' "") as [n|] eqn:Hs; [|discriminate].
  injection H as <-.
  apply (scan_name_copies _ _ _ _ (Nat.le_refl _)) in Hs. simpl in Hs. subst n.
  pose proof (parse_modifier_consistent _ _ _ _ Hm) as (_ & _ & Hd).
  pose proof (parse_modifier_str _ _ _ _ Hm Hcanon) as Hstr.
  etransitivity; [|symmetry; apply before_default_append].
  rewrite <- Hstr. unfold Variable_str.
  cbn [set_name name max_length explode array default]. rewrite Hd.
  now rewrite !append_assoc.
Qed.

Lemma Variable_str_roundtrip_witness :
  Variable_str (mkVariable "a%41b" 12 false false (Some "x:y")) = "a%41b:12=x:y".
Proof.
  apply (Variable_str_roundtrip "a%41b:12=x:y"); reflexivity.
Defined.

(** C1: the string form does not always reproduce the input.  A prefix
    length written with a leading zero is accepted, stored as a number
    and printed without the zero: [Variable("a:03")] prints as [a:3]. *)
Theorem Variable_str_drops_leading_zero :
  Variable_init "a:03" = Ok (mkVariable "a" 3 false false None)
  /\ Variable_str (mkVariable "a" 3 false false None) = "a:3"
  /\ Variable_str (mkVariable "a" 3 false false None) <> "a:03".
Proof. split; [reflexivity | split; [reflexivity | discriminate]]. Qed.

(** The same at the level of the template: [{a:03}] parses and prints
    as [{a:3}]. *)
Lemma URITemplate_str_drops_leading_zero :
  exists t, URITemplate_init "{a:03}" = Ok t /\ URITemplate_str t = "{a:3}".
Proof. eexists. split; reflexivity. Qed.

(** ** [URITemplate]: the split of a template *)

Lemma re_split_from_text (pre : string) : forall rest text,
  Py.contains "{" pre = false ->
  re_split_from (pre ++ rest) text None = re_split_from rest (text ++ pre) None.
Proof.
  induction pre as [|c pre IH]; intros rest text H.
  - simpl. now rewrite append_empty_r.
  - rewrite contains_char in H. apply orb_false_elim in H. destruct H as [Hc H].
    cbn [append re_split_from]. rewrite Ascii.eqb_sym, Hc.
    rewrite (IH rest _ H), append_assoc. reflexivity.
Qed.

Lemma re_split_from_body (b : string) : forall post text acc,
  Py.contains "}" b = false ->
  re_split_from (b ++ String "}" post) text (Some acc)
  = text :: directive (acc ++ b) :: re_split_from post "" None.
Proof.
  induction b as [|c b IH]; intros post text acc H.
  - simpl. now rewrite append_empty_r.
  - rewrite contains_char in H. apply orb_false_elim in H. destruct H as [Hc H].
    cbn [append re_split_from]. rewrite Ascii.eqb_sym, Hc.
    rewrite (IH post text _ H), append_assoc. reflexivity.
Qed.

(** A directive that follows text without [{] is a part of the split. *)
Lemma re_split_directive (pre body post : string) :
  Py.contains "{" pre = false -> Py.contains "}" body = false ->
  re_split (pre ++ directive body ++ post) = pre :: directive body :: re_split post.
Proof.
  intros Hpre Hbody. unfold re_split, directive.
  rewrite (re_split_from_text pre _ "" Hpre). cbn [append re_split_from Ascii.eqb Bool.eqb].
  rewrite append_assoc. cbn [append].
  now rewrite (re_split_from_body body post pre "" Hbody).
Qed.

(** ** [URITemplate]: parsing *)

(** C10: parsing the template [{}] raises [ExpansionInvalid]; the empty
    directive matches no operator and is not a reserved one. *)
Theorem URITemplate_init_empty_directive :
  URITemplate_init "{}" = Raise (ExpansionInvalid "{}").
Proof. reflexivity. Qed.

(** A body that starts with neither a word character nor [%] does not
    match the pattern of the simple expansion. *)
Lemma re_match_simple_other (c : ascii) (body : string) :
  is_word c = false /\ Ascii.eqb c "%" = false ->
  re_match_simple (String c body) = false.
Proof.
  intros [Hw Hp]. unfold re_match_simple. rewrite Hw, Hp.
  destruct body as [|h1 [|h2 r]]; reflexivity.
Qed.

Lemma parse_expression_reserved (c : ascii) (body : string) :
  reserved_operator c = true ->
  parse_expression (directive (String c body))
  = Raise (ExpansionReserved (directive (String c body))).
Proof.
  intros Hc. unfold parse_expression, directive.
  change (Py.drop 1 ("{" ++ String c body ++ "}")) with (String c body ++ "}").
  rewrite drop_last_append.
  rewrite re_match_simple_other
    by (destruct c as [[] [] [] [] [] [] [] []]; try discriminate Hc; split; reflexivity).
  destruct c as [[] [] [] [] [] [] [] []]; try discriminate Hc; reflexivity.
Qed.

Lemma parse_part_directive (body : string) :
  parse_part (directive body)
  = e <- parse_expression (directive body) ;; Ok (Some e).
Proof.
  unfold parse_part, directive.
  change ("{" ++ body ++ "}") with (String "{" (body ++ "}")).
  cbn [Ascii.eqb Bool.eqb andb and_then].
  replace (Py.last (String "{" (body ++ "}"))) with (@Ok ascii "}"%char)
    by (symmetry; apply (last_append ("{" ++ body) "}"%char)).
  reflexivity.
Qed.

Lemma parse_part_reserved (c : ascii) (body : string) :
  reserved_operator c = true ->
  parse_part (directive (String c body))
  = Raise (ExpansionReserved (directive (String c body))).
Proof.
  intros Hc.
  rewrite parse_part_directive, (parse_expression_reserved c body Hc).
  reflexivity.
Qed.

(** Text without braces is a literal. *)
Lemma parse_part_literal (text : string) :
  Py.contains "{" text = false -> Py.contains "}" text = false ->
  exists r, parse_part text = Ok r.
Proof.
  intros Ho Hc. unfold parse_part. destruct text as [|first rest]; [eauto|].
  rewrite Ho, Hc. rewrite contains_char in Ho.
  apply orb_false_elim in Ho. destruct Ho as [-> _]. simpl. eauto.
Qed.

Lemma parse_parts_raise (ps : list string) : forall d qs e acc,
  parse_part d = Raise e ->
  exists e', parse_parts (ps ++ d :: qs)%list acc = Raise e'.
Proof.
  induction ps as [|p ps IH]; intros d qs e acc Hd; simpl.
  - rewrite Hd. simpl. eauto.
  - destruct (parse_part p) as [[x|]|e0]; simpl; eauto.
Qed.

Lemma parse_parts_first_raise (ps : list string) : forall d qs e acc,
  (forall p, In p ps -> exists r, parse_part p = Ok r) ->
  parse_part d = Raise e ->
  parse_parts (ps ++ d :: qs)%list acc = Raise e.
Proof.
  induction ps as [|p ps IH]; intros d qs e acc Hps Hd; simpl.
  - rewrite Hd. reflexivity.
  - destruct (Hps p (or_introl eq_refl)) as [r ->]. simpl.
    destruct r; apply IH; auto; intros q Hq; apply Hps; now right.
Qed.

(** C9, as the code has it: a template with a directive whose body
    begins with [=], [!], [@] or [|] is never constructed; the error is
    [ExpansionReserved], carrying the directive, when every part of the
    template before the directive parses (the parts are read in order
    and the first malformed one raises its own error). *)
Theorem URITemplate_init_reserved
  (template : string) (ps qs : list string) (c : ascii) (body : string) :
  re_split template = (ps ++ directive (String c body) :: qs)%list ->
  reserved_operator c = true ->
  (exists e, URITemplate_init template = Raise e)
  /\ ((forall p, In p ps -> exists r, parse_part p = Ok r) ->
      URITemplate_init template
      = Raise (ExpansionReserved (directive (String c body)))).
Proof.
  intros Hsplit Hc. unfold URITemplate_init. rewrite Hsplit.
  pose proof (parse_part_reserved c body Hc) as Hd. split.
  - destruct (parse_parts_raise ps _ qs _ [] Hd) as [e' ->]. simpl. eauto.
  - intros Hps. rewrite (parse_parts_first_raise ps _ qs _ [] Hps Hd).
    reflexivity.
Qed.

Lemma URITemplate_init_reserved_witness :
  URITemplate_init "http://example.org/{!x}{y}"
  = Raise (ExpansionReserved "{!x}").
Proof.
  refine (proj2 (URITemplate_init_reserved "http://example.org/{!x}{y}"
                   ["http://example.org/"] [""; "{y}"; ""] "!" "x"
                   eq_refl eq_refl) _).
  intros p [<-|[]]. exists (Some (Literal "http://example.org/")). reflexivity.
Defined.

(** The template [{}{!x}] contains the directive [{!x}], and its
    construction raises [ExpansionInvalid] for [{}], which comes first. *)
Lemma URITemplate_init_reserved_after_invalid :
  re_split "{}{!x}" = [""; "{}"; ""; "{!x}"; ""]
  /\ URITemplate_init "{}{!x}" = Raise (ExpansionInvalid "{}").
Proof. split; reflexivity. Qed.

(** A template that begins with text without braces, followed by a
    directive whose body begins with a reserved operator, raises
    [ExpansionReserved] for that directive. *)
Lemma URITemplate_init_reserved_first (pre post body : string) (c : ascii) :
  Py.contains "{" pre = false -> Py.contains "}" pre = false ->
  Py.contains "}" (String c body) = false ->
  reserved_operator c = true ->
  URITemplate_init (pre ++ directive (String c body) ++ post)
  = Raise (ExpansionReserved (directive (String c body))).
Proof.
  intros Ho Hc Hb Hr. unfold URITemplate_init.
  rewrite (re_split_directive pre _ post Ho Hb).
  change (pre :: directive (String c body) :: re_split post)
    with ([pre] ++ directive (String c body) :: re_split post)%list.
  rewrite (parse_parts_first_raise [pre] _ (re_split post)
             (ExpansionReserved (directive (String c body))) []);
    [reflexivity | | now apply parse_part_reserved].
  intros p [<-|[]]. now apply parse_part_literal.
Qed.

(** The template [{1x}] parses: its directive is a simple expansion of
    the variable named [1x]. *)
Lemma URITemplate_init_digit_start :
  URITemplate_init "{1x}"
  = Ok (mkURITemplate
          [Expression SimpleExpansion [mkVariable "1x" 0 false false None]]).
Proof. reflexivity. Qed.

(** C8, as the code has it: a variable specification whose first
    character is not a legal start character is rejected with
    [VariableInvalid], carrying the specification; the digits are legal
    start characters, and parsing [{1x}] succeeds. *)
Theorem Variable_init_start_character :
  (forall (c : ascii) (rest : string),
      Py.char_in c Charset.VAR_START = false ->
      Variable_init (String c rest) = Raise (VariableInvalid (String c rest)))
  /\ all_chars (fun c => Py.char_in c Charset.VAR_START) Charset.DIGIT = true
  /\ exists t, URITemplate_init "{1x}" = Ok t
               /\ map Variable_str (URITemplate_variables t) = ["1x"].
Proof.
  split; [|split].
  - intros c rest Hc. unfold Variable_init.
    change (Py.contains (Py.take 1 (String c rest)) Charset.VAR_START)
      with (Py.char_in c Charset.VAR_START).
    rewrite Hc. reflexivity.
  - reflexivity.
  - eexists. split; reflexivity.
Qed.

Lemma Variable_init_start_character_witness :
  Variable_init "-x" = Raise (VariableInvalid "-x")
  /\ URITemplate_init "{+-x}" = Raise (VariableInvalid "-x").
Proof.
  split; [|reflexivity].
  apply (proj1 Variable_init_start_character "-"%char "x"). reflexivity.
Defined.

(** ** [URITemplate.variables] and [URITemplate.variable_names] *)

Section OrderedDictFacts.

Import OrderedDict.

Context {V : Type}.

Lemma mem_In x l : mem x l = true <-> In x l.
Proof.
  unfold mem. rewrite existsb_exists. split.
  - intros (y & Hy & He). apply String.eqb_eq in He. now subst.
  - intros H. exists x. split; [assumption | apply String.eqb_refl].
Qed.

Lemma keys_setitem (d : t V) k v :
  keys (setitem d k v) = if mem k (keys d) then keys d else (keys d ++ [k])%list.
Proof.
  induction d as [|[k' v'] d IH]; simpl; [reflexivity|].
  rewrite (String.eqb_sym k k').
  destruct (String.eqb_spec k' k) as [->|Hne]; simpl; [reflexivity|].
  unfold keys in *. rewrite IH. fold (mem k (map fst d)).
  destruct (mem k (map fst d)); reflexivity.
Qed.

Lemma getitem_setitem (d : t V) k v k' :
  getitem (setitem d k v) k' = if String.eqb k k' then Some v else getitem d k'.
Proof.
  unfold getitem.
  induction d as [|[k0 v0] d IH]; simpl.
  - destruct (String.eqb k k'); reflexivity.
  - destruct (String.eqb_spec k0 k) as [->|Hne]; simpl.
    + destruct (String.eqb k k'); reflexivity.
    + destruct (String.eqb_spec k0 k') as [He|Hne']; simpl.
      * destruct (String.eqb_spec k k') as [He'|_]; [congruence | reflexivity].
      * exact IH.
Qed.

Lemma NoDup_keys_setitem (d : t V) k v :
  NoDup (keys d) -> NoDup (keys (setitem d k v)).
Proof.
  intros Hd. rewrite keys_setitem.
  destruct (mem k (keys d)) eqn:Hm; [assumption|].
  apply NoDup_app; [assumption | repeat constructor; intros [] | ].
  intros x Hx [<-|[]]. apply mem_In in Hx. congruence.
Qed.

Lemma values_getitem (d : t V) :
  NoDup (keys d) -> map Some (values d) = map (getitem d) (keys d).
Proof.
  unfold getitem.
  induction d as [|[k v] d IH]; simpl; intros Hd; [reflexivity|].
  inversion Hd as [|? ? Hk Hd']; subst.
  rewrite String.eqb_refl. simpl. f_equal.
  rewrite (IH Hd'). apply map_ext_in. intros k' Hk'.
  destruct (String.eqb_spec k k') as [->|_]; [contradiction | reflexivity].
Qed.

End OrderedDictFacts.

Lemma collect_variables_fill (self : URITemplate) :
  collect_variables self = fill OrderedDict.empty (all_variables self).
Proof.
  unfold collect_variables, all_variables, fill.
  generalize (@OrderedDict.empty variable).
  induction (expansions self) as [|e es IH]; intros d; simpl; [reflexivity|].
  rewrite fold_left_app. apply IH.
Qed.

Lemma first_occurrences_from_ext (l : list string) : forall s1 s2,
  (forall x, mem x s1 = mem x s2) ->
  first_occurrences_from s1 l = first_occurrences_from s2 l.
Proof.
  induction l as [|x l IH]; intros s1 s2 H; simpl; [reflexivity|].
  rewrite <- (H x). destruct (mem x s1); [now apply IH|].
  f_equal. apply IH. intros y. simpl. now rewrite H.
Qed.

Lemma mem_app x l1 l2 : mem x (l1 ++ l2) = mem x l1 || mem x l2.
Proof. apply existsb_app. Qed.

Lemma keys_fill (vs : list variable) : forall d,
  OrderedDict.keys (fill d vs)
  = (OrderedDict.keys d
     ++ first_occurrences_from (OrderedDict.keys d) (map (fun v => name v) vs))%list.
Proof.
  induction vs as [|v vs IH]; intros d; simpl.
  - now rewrite app_nil_r.
  - unfold fill in *. simpl. rewrite IH, keys_setitem.
    destruct (mem (name v) (OrderedDict.keys d)); [reflexivity|].
    rewrite <- app_assoc. simpl. do 2 f_equal.
    apply first_occurrences_from_ext. intros x.
    rewrite mem_app. simpl. rewrite orb_false_r. apply orb_comm.
Qed.

Lemma NoDup_keys_fill (vs : list variable) : forall d,
  NoDup (OrderedDict.keys d) -> NoDup (OrderedDict.keys (fill d vs)).
Proof.
  induction vs as [|v vs IH]; intros d Hd; simpl; [assumption|].
  apply IH. now apply NoDup_keys_setitem.
Qed.

Lemma last_named_cons n v vs :
  last_named n (v :: vs)
  = match last_named n vs with
    | Some x => Some x
    | None => if String.eqb (name v) n then Some v else None
    end.
Proof.
  unfold last_named. simpl.
  induction (rev vs) as [|y ys IH]; simpl; [reflexivity|].
  destruct (String.eqb (name y) n); [reflexivity | exact IH].
Qed.

Lemma getitem_fill (vs : list variable) : forall d k,
  OrderedDict.getitem (fill d vs) k
  = match last_named k vs with
    | Some v => Some v
    | None => OrderedDict.getitem d k
    end.
Proof.
  induction vs as [|v vs IH]; intros d k; [reflexivity|].
  rewrite last_named_cons. unfold fill in *. simpl. rewrite IH.
  destruct (last_named k vs); [reflexivity|].
  rewrite getitem_setitem.
  destruct (String.eqb (name v) k); reflexivity.
Qed.

Lemma keyed_by_name_setitem d v :
  keyed_by_name d -> keyed_by_name (OrderedDict.setitem d (name v) v).
Proof.
  unfold keyed_by_name. induction d as [|[k x] d IH]; simpl; intros H.
  - repeat constructor.
  - inversion H as [|? ? Hk Hd]; subst.
    destruct (String.eqb_spec k (name v)) as [->|_]; constructor; auto.
Qed.

Lemma keyed_by_name_fill (vs : list variable) : forall d,
  keyed_by_name d -> keyed_by_name (fill d vs).
Proof.
  induction vs as [|v vs IH]; intros d Hd; simpl; [assumption|].
  apply IH. now apply keyed_by_name_setitem.
Qed.

Lemma keyed_by_name_keys d :
  keyed_by_name d -> map (fun v => name v) (OrderedDict.values d) = OrderedDict.keys d.
Proof.
  unfold OrderedDict.values, OrderedDict.keys.
  induction 1 as [|[k v] d Hk _ IH]; simpl in *; [reflexivity | now rewrite IH, Hk].
Qed.

(** C5, as the code has it: [variables] and [variable_names] give each
    distinct name once, in the order of the first occurrence of the
    names in the text; the specification kept for a name that occurs
    several times is the last one, since each assignment to the
    dictionary replaces the value stored under the name. *)
Theorem URITemplate_variables_spec (self : URITemplate) :
  let vs := all_variables self in
  URITemplate_variable_names self = first_occurrences (map (fun v => name v) vs)
  /\ NoDup (URITemplate_variable_names self)
  /\ map (fun v => name v) (URITemplate_variables self) = URITemplate_variable_names self
  /\ map Some (URITemplate_variables self)
     = map (fun n => last_named n vs) (URITemplate_variable_names self).
Proof.
  intros vs. unfold URITemplate_variable_names, URITemplate_variables.
  rewrite collect_variables_fill. fold vs.
  assert (Hk : keyed_by_name (fill OrderedDict.empty vs))
    by (apply keyed_by_name_fill; constructor).
  assert (Hn : NoDup (OrderedDict.keys (fill OrderedDict.empty vs)))
    by (apply NoDup_keys_fill; constructor).
  rewrite (keyed_by_name_keys _ Hk).
  repeat split.
  - apply (keys_fill vs OrderedDict.empty).
  - exact Hn.
  - rewrite (values_getitem _ Hn).
    apply map_ext. intros n. rewrite getitem_fill.
    destruct (last_named n vs); reflexivity.
Qed.

(** In [{a}{a*}] the name [a] occurs twice; the specification that
    [variables] gives for it is the second one, [a*], not the first. *)
Lemma URITemplate_variables_keeps_last :
  exists t,
    URITemplate_init "{a}{a*}" = Ok t
    /\ URITemplate_variables t = [mkVariable "a" 0 true false None]
    /\ first_named "a" (all_variables t) = Some (mkVariable "a" 0 false false None).
Proof. eexists. repeat split. Qed.

(** ** Parsing raises no [ExpansionFailed] *)












(** ** [URITemplate.expand], [URITemplate.partial], [URITemplate.expanded] *)

Lemma join_empty_cons (p : string) (ps : list string) :
  Py.join "" (p :: ps) = p ++ Py.join "" ps.
Proof. destruct ps; simpl; [now rewrite append_empty_r | reflexivity]. Qed.

Lemma join_not_None (results : list (option string)) :
  Py.join "" (not_None results) = concatenation results.
Proof.
  induction results as [|[s|] rs IH]; [reflexivity | | exact IH].
  cbn [not_None concatenation]. now rewrite join_empty_cons, IH.
Qed.

Lemma comprehension_Ok {A : Type} (f : Expansion -> Res A) nodes rs :
  comprehension f nodes = Ok rs <-> all_return f nodes rs.
Proof.
  unfold all_return. revert rs.
  induction nodes as [|e es IH]; intros rs; simpl.
  - split; [intros [= <-]; constructor | inversion 1; reflexivity].
  - split.
    + intros H. destruct (f e) as [r|] eqn:He; [|discriminate]. simpl in H.
      destruct (comprehension f es) as [rs'|] eqn:Hes; [|discriminate].
      injection H as <-. constructor; [assumption | now apply IH].
    + inversion 1 as [|? r ? rs' He Hes]; subst.
      rewrite He. simpl. apply IH in Hes. now rewrite Hes.
Qed.

Lemma comprehension_Raise {A : Type} (f : Expansion -> Res A) nodes x :
  comprehension f nodes = Raise x <-> first_raise f nodes x.
Proof.
  unfold first_raise. induction nodes as [|e es IH]; simpl.
  - split; [discriminate | intros ([|? ?] & ? & ? & ? & H & _); discriminate].
  - split.
    + intros H. destruct (f e) as [r|x'] eqn:He; simpl in H.
      * destruct (comprehension f es) as [rs'|x''] eqn:Hes; [discriminate|].
        injection H as ->. destruct (proj1 IH eq_refl) as (b & e' & a & rs & -> & Hb & He').
        exists (e :: b), e', a, (r :: rs). repeat split; [|assumption].
        constructor; assumption.
      * injection H as ->. exists [], e, es, []. repeat split; [constructor | assumption].
    + intros (b & e' & a & rs & Hn & Hb & He').
      destruct b as [|e0 b]; simpl in Hn; injection Hn as -> ->.
      * rewrite He'. reflexivity.
      * inversion Hb as [|? r ? rs' He0 Hb']; subst. rewrite He0. simpl.
        rewrite (proj2 IH) by (exists b, e', a, rs'; auto). reflexivity.
Qed.

Lemma comprehension_cases {A : Type} (f : Expansion -> Res A) nodes :
  (exists rs, all_return f nodes rs) \/ (exists x, first_raise f nodes x).
Proof.
  destruct (comprehension f nodes) as [rs|x] eqn:H.
  - left. exists rs. now apply comprehension_Ok.
  - right. exists x. now apply comprehension_Raise.
Qed.

Section TemplateFacts.

Variable Expansion_expand : Expansion -> Values -> Res (option string).
Variable Expansion_partial : Expansion -> Values -> Res string.

(** C3: when every node returns, [expand] returns the concatenation, in
    order, of the results of the nodes; when a node raises
    [ExpansionFailed], [expand] returns [None]; [ExpansionFailed] is
    never raised to the caller; and these are the only outcomes when the
    nodes raise nothing but [ExpansionFailed]. *)
Theorem URITemplate_expand_spec (self : URITemplate) (kwargs : Values) :
  let node := fun e => Expansion_expand e kwargs in
  (forall rs, all_return node (expansions self) rs ->
              URITemplate_expand Expansion_expand self kwargs = Ok (Some (concatenation rs)))
  /\ (first_raise node (expansions self) ExpansionFailed ->
      URITemplate_expand Expansion_expand self kwargs = Ok None)
  /\ URITemplate_expand Expansion_expand self kwargs <> Raise ExpansionFailed
  /\ ((forall e x, In e (expansions self) -> node e = Raise x -> x = ExpansionFailed) ->
      URITemplate_expand Expansion_expand self kwargs = Ok None
      \/ exists rs, all_return node (expansions self) rs
                    /\ URITemplate_expand Expansion_expand self kwargs = Ok (Some (concatenation rs))).
Proof.
  intros node. unfold URITemplate_expand. fold node.
  assert (Hok : forall rs, all_return node (expansions self) rs ->
                  try_except_ExpansionFailed (comprehension node (expansions self))
                    (fun expanded => Ok (Some (Py.join "" (not_None expanded))))
                  = Ok (Some (concatenation rs))).
  { intros rs H. apply comprehension_Ok in H. rewrite H. simpl.
    now rewrite join_not_None. }
  assert (Hfail : first_raise node (expansions self) ExpansionFailed ->
                  try_except_ExpansionFailed (comprehension node (expansions self))
                    (fun expanded => Ok (Some (Py.join "" (not_None expanded))))
                  = Ok None).
  { intros H. apply comprehension_Raise in H. now rewrite H. }
  split; [exact Hok | split; [exact Hfail | split]].
  - destruct (comprehension node (expansions self)) as [rs|[]]; discriminate.
  - intros Honly.
    destruct (comprehension_cases node (expansions self)) as [[rs H]|[x H]].
    + right. exists rs. auto.
    + left. destruct H as (b & e & a & rs & Hn & Hb & He).
      assert (x = ExpansionFailed) as ->.
      { apply (Honly e); [|exact He]. rewrite Hn. apply in_elt. }
      apply Hfail. exists b, e, a, rs. auto.
Qed.

(** C4: [expanded] is true exactly when the string form of the template
    equals the result of [expand] called with no bindings. *)
Theorem URITemplate_expanded_spec (self : URITemplate) :
  URITemplate_expanded Expansion_expand self = Ok true
  <-> URITemplate_expand Expansion_expand self [] = Ok (Some (URITemplate_str self)).
Proof.
  unfold URITemplate_expanded.
  destruct (URITemplate_expand Expansion_expand self []) as [[s|]|x]; simpl.
  - destruct (String.eqb_spec (URITemplate_str self) s) as [He|Hne].
    + rewrite He. split; reflexivity.
    + split; [discriminate | intros [= He]; now symmetry in He].
  - split; discriminate.
  - split; discriminate.
Qed.


End TemplateFacts.

Lemma URITemplate_expand_spec_witness :
  URITemplate_expand literal_expand
    (mkURITemplate [Literal "http://"; Literal "example.org"]) []
  = Ok (Some "http://example.org")
  /\ URITemplate_expand literal_expand
       (mkURITemplate [Literal "/"; Expression SimpleExpansion []; Literal "x"]) []
     = Ok None.
Proof.
  split.
  - apply (proj1 (URITemplate_expand_spec literal_expand
                    (mkURITemplate [Literal "http://"; Literal "example.org"]) [])
                 [Some "http://"; Some "example.org"]).
    repeat constructor.
  - apply (proj1 (proj2 (URITemplate_expand_spec literal_expand
                    (mkURITemplate [Literal "/"; Expression SimpleExpansion []; Literal "x"])
                    []))).
    exists [Literal "/"], (Expression SimpleExpansion []), [Literal "x"], [Some "/"].
    repeat constructor.
Defined.

(** Whatever the encoding algorithms do, [partial] returns [None] for
    the template [{keys:1}] when [keys] is a mapping. *)
Lemma URITemplate_partial_prefix_mapping substitute :
  URITemplate_partial (Expansion_partial_model substitute)
    (mkURITemplate
       [Expression SimpleExpansion [mkVariable "keys" 1 false false None]])
    keys_values
  = Ok None.
Proof. reflexivity. Qed.



(** ** [Variable]: the grammar of the accepted specifications *)

Lemma contains_append (x : ascii) (a b : string) :
  Py.contains (String x "") (a ++ b)
  = Py.contains (String x "") a || Py.contains (String x "") b.
Proof.
  induction a as [|c a IH]; [reflexivity|].
  cbn [append]. now rewrite !contains_char, IH, orb_assoc.
Qed.

Lemma split1_first (sep : ascii) (a b : string) :
  Py.contains (String sep "") a = false ->
  Py.split1 sep (a ++ String sep b) = (a, b).
Proof.
  induction a as [|c a IH]; intros H.
  - simpl. now rewrite Ascii.eqb_refl.
  - rewrite contains_char in H. apply orb_false_elim in H. destruct H as [Hc H].
    cbn [append Py.split1]. rewrite Ascii.eqb_sym, Hc, (IH H). reflexivity.
Qed.

Lemma drop_append (a b : string) : Py.drop (String.length a) (a ++ b) = b.
Proof. induction a as [|x a IH]; simpl; [now destruct b | exact IH]. Qed.

Lemma drop_last_append_text (a b : string) :
  Py.drop_last (String.length b) (a ++ b) = a.
Proof.
  unfold Py.drop_last.
  replace (String.length (a ++ b) - String.length b)%nat with (String.length a)
    by (rewrite length_append; lia).
  apply take_append.
Qed.

Lemma take_last_append_text (a b : string) :
  Py.take_last (String.length b) (a ++ b) = b.
Proof.
  unfold Py.take_last.
  replace (String.length (a ++ b) - String.length b)%nat with (String.length a)
    by (rewrite length_append; lia).
  apply drop_append.
Qed.

Lemma all_chars_contains (p : ascii -> bool) (x : ascii) (s : string) :
  all_chars p s = true -> p x = false -> Py.contains (String x "") s = false.
Proof.
  intros Hs Hx. induction s as [|c s IH]; [reflexivity|].
  cbn [all_chars] in Hs. apply andb_prop in Hs. destruct Hs as [Hc Hs].
  rewrite contains_char, (IH Hs), orb_false_r.
  destruct (Ascii.eqb_spec x c) as [->|_]; [congruence | reflexivity].
Qed.

Lemma all_chars_drop (p : ascii -> bool) (n : nat) : forall s,
  all_chars p s = true -> all_chars p (Py.drop n s) = true.
Proof.
  induction n as [|n IH]; intros [|c s] H; simpl; try assumption.
  apply IH. cbn [all_chars] in H. now apply andb_prop in H.
Qed.

Lemma all_chars_append (p : ascii -> bool) (a b : string) :
  all_chars p (a ++ b) = all_chars p a && all_chars p b.
Proof.
  induction a as [|c a IH]; [reflexivity|].
  cbn [append all_chars]. now rewrite IH, andb_assoc.
Qed.

Lemma all_chars_last (p : ascii -> bool) (s : string) (c : ascii) :
  all_chars p s = true -> Py.last s = Ok c -> p c = true.
Proof.
  intros Hs Hl. apply last_drop_last in Hl. rewrite Hl, all_chars_append in Hs.
  apply andb_prop in Hs. destruct Hs as [_ Hc]. cbn [all_chars] in Hc.
  now rewrite andb_true_r in Hc.
Qed.

Lemma get_in_range (s : string) : forall i,
  (i < String.length s)%nat -> exists c, String.get i s = Some c.
Proof.
  induction s as [|x s IH]; intros i Hi; simpl in Hi; [lia|].
  destruct i as [|i]; simpl; [eauto | apply IH; lia].
Qed.

Lemma last_nonempty (x : ascii) (s : string) : exists c, Py.last (String x s) = Ok c.
Proof.
  unfold Py.last, Py.index.
  destruct (get_in_range (String x s) (String.length (String x s) - 1)) as [c ->];
    [simpl; lia | eauto].
Qed.

(** The characters of a name. *)
Lemma varname_name_chars (n : string) : varname n -> all_chars name_char n = true.
Proof.
  unfold name_char. induction 1 as [|c s Hc _ IH|h1 h2 s H1 H2 _ IH].
  - reflexivity.
  - cbn [all_chars]. now rewrite Hc, IH.
  - cbn [all_chars]. rewrite H1, H2, IH, !orb_true_r. reflexivity.
Qed.

Lemma scan_name_varname (k : nat) : forall rest acc n,
  (String.length rest <= k)%nat ->
  scan_name rest acc = Some n -> varname rest.
Proof.
  induction k as [|k IH]; intros rest acc n Hk.
  - destruct rest; [constructor | simpl in Hk; lia].
  - destruct rest as [|c tl]; [constructor|].
    assert (Hplain :
      (if Py.char_in c Charset.VAR_CHAR
       then scan_name tl (acc ++ String c "") else None) = Some n ->
      varname (String c tl)).
    { destruct (Py.char_in c Charset.VAR_CHAR) eqn:Hc; [|discriminate].
      intros H. apply varname_char; [exact Hc|].
      apply IH in H; [exact H | simpl in Hk; lia]. }
    cbn [scan_name]. destruct tl as [|h1 [|h2 tl']]; try exact Hplain.
    destruct (Ascii.eqb_spec "%" c) as [<-|_]; [|exact Hplain].
    destruct (Py.char_in h1 Charset.HEX_DIGIT) eqn:H1; [|exact Hplain].
    destruct (Py.char_in h2 Charset.HEX_DIGIT) eqn:H2; [|exact Hplain].
    cbn [andb]. intros H. apply varname_escape; [exact H1 | exact H2|].
    apply IH in H; [exact H | simpl in Hk; lia].
Qed.

Lemma scan_name_accepts (s : string) :
  varname s -> forall acc, scan_name s acc = Some (acc ++ s).
Proof.
  induction 1 as [|c s Hc _ IH|h1 h2 s H1 H2 _ IH]; intros acc.
  - simpl. now rewrite append_empty_r.
  - assert (Hne : Ascii.eqb "%" c = false).
    { destruct (Ascii.eqb_spec "%" c) as [<-|_]; [discriminate Hc | reflexivity]. }
    cbn [scan_name]. rewrite Hc, Hne, IH, append_assoc.
    destruct s as [|h1 [|h2 s']]; reflexivity.
  - cbn [scan_name]. rewrite H1, H2. cbn [Ascii.eqb Bool.eqb andb].
    rewrite IH, append_assoc. reflexivity.
Qed.

Lemma varname_no_special (n : string) (x : ascii) :
  varname n -> name_char x = false -> Py.contains (String x "") n = false.
Proof.
  intros Hn Hx. apply (all_chars_contains name_char); [|exact Hx].
  now apply varname_name_chars.
Qed.

Lemma before_default_spec_text (x : string) (d : option string) :
  Py.contains "=" x = false ->
  before_default (x ++ default_text d) = x /\ default_of (x ++ default_text d) = d.
Proof.
  intros Hx. unfold before_default, default_of.
  destruct d as [d|]; cbn [default_text append].
  - rewrite contains_append, Hx, (split1_first "=" x d Hx). split; reflexivity.
  - rewrite append_empty_r, Hx. split; reflexivity.
Qed.

Lemma parse_modifier_accepts (n : string) (m : Modifier) (d : option string) :
  varname n -> n <> "" -> well_formed_modifier m ->
  parse_modifier (n ++ modifier_text m) (mkVariable "" 0 false false d)
  = Ok (n, spec_variable "" m d).
Proof.
  intros Hn Hne Hm.
  pose proof (varname_no_special n ":" Hn eq_refl) as Hcolon.
  destruct m as [|p| |]; cbn [modifier_text].
  - rewrite append_empty_r. unfold parse_modifier. rewrite Hcolon.
    destruct n as [|c n']; [contradiction|].
    destruct (last_nonempty c n') as [l Hl]. rewrite Hl. cbn [bind].
    pose proof (all_chars_last name_char _ l (varname_name_chars _ Hn) Hl) as Hlc.
    destruct (Ascii.eqb_spec "*" l) as [<-|_]; [discriminate Hlc|].
    destruct (String.eqb_spec "[]" (Py.take_last 2 (String c n'))) as [He|_];
      [|reflexivity].
    pose proof (all_chars_drop name_char (String.length (String c n') - 2) _
                  (varname_name_chars _ Hn)) as Hd.
    unfold Py.take_last in He. rewrite <- He in Hd. discriminate Hd.
  - change (n ++ ":" ++ p) with (n ++ String ":" p).
    rewrite parse_modifier_prefix
      by (rewrite contains_append, contains_char; apply orb_true_r).
    rewrite (split1_first ":" n p Hcolon). cbn in Hm. rewrite Hm. reflexivity.
  - unfold parse_modifier. rewrite contains_append, Hcolon. cbn [orb].
    change (Py.contains ":" "*") with false. cbn iota.
    rewrite last_append. cbn [bind Ascii.eqb Bool.eqb andb].
    rewrite drop_last_append. reflexivity.
  - unfold parse_modifier. rewrite contains_append, Hcolon. cbn [orb].
    change (Py.contains ":" "[]") with false. cbn iota.
    replace (Py.last (n ++ "[]")) with (@Ok ascii "]"%char)
      by (symmetry; change (n ++ "[]") with (n ++ "[" ++ "]");
          rewrite <- append_assoc; apply last_append).
    cbn [bind Ascii.eqb Bool.eqb andb].
    change 2%nat with (String.length "[]").
    rewrite (take_last_append_text n "[]"), (drop_last_append_text n "[]").
    reflexivity.
Qed.

(** Every specification of the grammar is accepted, and read as the
    grammar says. *)
Lemma Variable_init_accepts (n : string) (m : Modifier) (d : option string) :
  legal_name n -> well_formed_modifier m ->
  Variable_init (spec_text n m d) = Ok (spec_variable n m d).
Proof.
  intros [Hn (c & rest & -> & Hc)] Hm. unfold spec_text.
  rewrite Variable_init_unfold.
  change (Py.contains (Py.take 1 (String c rest ++ modifier_text m ++ default_text d))
            Charset.VAR_START) with (Py.char_in c Charset.VAR_START).
  rewrite Hc. cbn [negb]. rewrite <- append_assoc.
  assert (Heq : Py.contains "=" (String c rest ++ modifier_text m) = false).
  { rewrite contains_append, (varname_no_special _ "=" Hn eq_refl).
    destruct m as [|p| |]; try reflexivity.
    cbn [modifier_text orb]. change (":" ++ p) with (String ":" p).
    rewrite contains_char. cbn [Ascii.eqb Bool.eqb andb orb].
    apply (all_chars_contains is_decimal_digit); [|reflexivity].
    cbn in Hm. unfold well_formed_prefix in Hm.
    apply andb_prop in Hm. destruct Hm as [Hm _].
    now apply andb_prop in Hm. }
  destruct (before_default_spec_text _ d Heq) as [-> ->].
  rewrite (parse_modifier_accepts _ m d Hn (fun H => ltac:(discriminate H)) Hm).
  cbn [bind]. rewrite (scan_name_accepts _ Hn ""). reflexivity.
Qed.

Lemma parse_modifier_shape (bd : string) (d : option string) var_spec' self' :
  parse_modifier bd (mkVariable "" 0 false false d) = Ok (var_spec', self') ->
  exists m, well_formed_modifier m
            /\ bd = var_spec' ++ modifier_text m
            /\ self' = spec_variable "" m d.
Proof.
  intros H. destruct (Py.contains ":" bd) eqn:Hc.
  - rewrite (parse_modifier_prefix _ _ Hc) in H.
    pose proof (split1_append ":" bd Hc) as Hs.
    destruct (Py.split1 ":" bd) as [l r]. cbn [fst snd] in Hs.
    destruct (well_formed_prefix r) eqn:Hw; [|discriminate].
    injection H as <- <-. exists (Prefix r). repeat split; assumption.
  - unfold parse_modifier in H. rewrite Hc in H.
    apply bind_Ok in H. destruct H as (c & Hl & H).
    destruct (Ascii.eqb_spec "*" c) as [<-|_].
    + injection H as <- <-. exists Explode. repeat split.
      now apply last_drop_last.
    + destruct (String.eqb_spec "[]" (Py.take_last 2 bd)) as [He|_].
      * injection H as <- <-. exists Array. repeat split.
        cbn [modifier_text]. rewrite He. symmetry. apply drop_last_take_last.
      * injection H as <- <-. exists NoModifier. repeat split.
        cbn [modifier_text]. now rewrite append_empty_r.
Qed.

(** Every accepted specification is one of the grammar, and is read as
    the grammar says. *)
Lemma Variable_init_shape (var_spec : string) (v : variable) :
  Variable_init var_spec = Ok v ->
  exists m, legal_name (name v) /\ well_formed_modifier m
            /\ var_spec = spec_text (name v) m (default v)
            /\ v = spec_variable (name v) m (default v).
Proof.
  intros H. rewrite Variable_init_unfold in H.
  destruct (Py.contains (Py.take 1 var_spec) Charset.VAR_START) eqn:Hstart;
    [|discriminate]. cbn [negb] in H.
  apply bind_Ok in H. destruct H as ([vs' self'] & Hm & H).
  destruct (scan_name vs' "") as [n|] eqn:Hs; [|discriminate].
  injection H as <-.
  pose proof (scan_name_varname _ _ _ _ (Nat.le_refl _) Hs) as Hn.
  apply (scan_name_copies _ _ _ _ (Nat.le_refl _)) in Hs. simpl in Hs. subst n.
  destruct (parse_modifier_shape _ _ _ _ Hm) as (m & Hwf & Hbd & ->).
  cbn [set_name spec_variable name default max_length explode array].
  assert (Htext : var_spec = spec_text vs' m (default_of var_spec)).
  { unfold spec_text. rewrite <- append_assoc, <- Hbd.
    apply before_default_append. }
  exists m. repeat split; try assumption.
  destruct vs' as [|c rest].
  - exfalso. rewrite Htext in Hstart.
    destruct m; destruct (default_of var_spec) eqn:Hd; try discriminate Hstart.
    cbn in Hbd. rewrite Hbd in Hm. discriminate Hm.
  - exists c, rest. split; [reflexivity|].
    rewrite Htext in Hstart. exact Hstart.
Qed.

(** The number that a well-formed prefix length stands for prints as a
    well-formed prefix length of the same value. *)
Lemma prefix_normal (p : string) :
  well_formed_prefix p = true ->
  well_formed_prefix (Py.str (decimal_value p)) = true
  /\ decimal_value (Py.str (decimal_value p)) = decimal_value p.
Proof.
  intros Hw. pose proof Hw as H. unfold well_formed_prefix in H.
  apply andb_prop in H. destruct H as [H _].
  apply andb_prop in H. destruct H as [H Hd].
  apply andb_prop in H. destruct H as [_ Hl].
  destruct p as [|c1 [|c2 [|c3 [|c4 r]]]]; try discriminate.
  - cbn [all_chars] in Hd. rewrite andb_true_r in Hd.
    digit_case Hd; first [discriminate Hw | split; reflexivity].
  - cbn [all_chars] in Hd. rewrite andb_true_r in Hd.
    apply andb_prop in Hd. destruct Hd as [H1 H2].
    digit_case H1; digit_case H2; first [discriminate Hw | split; reflexivity].
  - cbn [all_chars] in Hd. rewrite andb_true_r in Hd.
    apply andb_prop in Hd. destruct Hd as [H1 Hd].
    apply andb_prop in Hd. destruct Hd as [H2 H3].
    digit_case H1; digit_case H2; digit_case H3;
      first [discriminate Hw | split; reflexivity].
Qed.

Lemma Variable_str_spec_variable (n : string) (m : Modifier) (d : option string) :
  well_formed_modifier m ->
  Variable_str (spec_variable n m d) = spec_text n (printed_modifier m) d
  /\ spec_variable n (printed_modifier m) d = spec_variable n m d
  /\ well_formed_modifier (printed_modifier m).
Proof.
  intros Hm. unfold Variable_str, spec_text.
  destruct m as [|p| |]; cbn [spec_variable printed_modifier modifier_text
    name max_length explode array default andb negb append Z.eqb];
    try (repeat split; destruct d; reflexivity).
  cbn in Hm. destruct (prefix_normal p Hm) as [Hw Hv].
  unfold spec_variable. rewrite Hv.
  unfold well_formed_prefix in Hm. apply andb_prop in Hm. destruct Hm as [_ Hz].
  apply negb_true_iff in Hz. rewrite Hz.
  repeat split. exact Hw.
Qed.

(** X2: what [Variable.__init__] accepts is the grammar: a legal name,
    then nothing, [:] and a well-formed prefix length, [*] or [[]], then
    possibly [=] and any text; and the object has the name, the value of
    the prefix length, the marks and the default of that reading. *)
Theorem Variable_init_grammar (var_spec : string) (v : variable) :
  Variable_init var_spec = Ok v <->
  exists n m d, legal_name n /\ well_formed_modifier m
                /\ var_spec = spec_text n m d /\ v = spec_variable n m d.
Proof.
  split.
  - intros H. destruct (Variable_init_shape _ _ H) as (m & Hn & Hm & Ht & Hv).
    exists (name v), m, (default v). auto.
  - intros (n & m & d & Hn & Hm & -> & ->). now apply Variable_init_accepts.
Qed.

(** X3: the string form of a constructed [Variable] is accepted, and
    gives the same object. *)
Theorem Variable_init_str (var_spec : string) (v : variable) :
  Variable_init var_spec = Ok v -> Variable_init (Variable_str v) = Ok v.
Proof.
  intros H. destruct (Variable_init_shape _ _ H) as (m & Hn & Hm & _ & Hv).
  destruct (Variable_str_spec_variable (name v) m (default v) Hm) as (Hs & He & Hp).
  rewrite Hv at 1. rewrite Hs, Hv, <- He.
  now apply Variable_init_accepts.
Qed.

Lemma Variable_init_str_witness :
  Variable_init (Variable_str (mkVariable "a" 3 false false (Some "x")))
  = Ok (mkVariable "a" 3 false false (Some "x")).
Proof. apply (Variable_init_str "a:003=x"). reflexivity. Defined.

Lemma before_default_nonempty (c : ascii) (rest : string) :
  Py.char_in c Charset.VAR_START = true ->
  exists rest', before_default (String c rest) = String c rest'.
Proof.
  intros Hc. unfold before_default.
  destruct (Py.contains "=" (String c rest)); [|eauto].
  cbn [Py.split1].
  destruct (Ascii.eqb_spec c "=") as [->|_]; [discriminate Hc|].
  destruct (Py.split1 "=" rest) as [l r]. cbn [fst]. eauto.
Qed.

Lemma parse_modifier_raises (c : ascii) (rest : string) (self : variable) (e : exn) :
  parse_modifier (String c rest) self = Raise e ->
  Py.contains ":" (String c rest) = true
  /\ e = VariableInvalid (String c rest).
Proof.
  intros H. destruct (Py.contains ":" (String c rest)) eqn:Hc.
  - split; [reflexivity|].
    rewrite (parse_modifier_prefix _ _ Hc) in H.
    pose proof (split1_append ":" _ Hc) as Hs.
    destruct (Py.split1 ":" (String c rest)) as [l r]. cbn [fst snd] in Hs.
    rewrite Hs.
    destruct (well_formed_prefix r); [discriminate|]. now injection H as <-.
  - unfold parse_modifier in H. rewrite Hc in H.
    destruct (last_nonempty c rest) as [l Hl]. rewrite Hl in H. cbn [bind] in H.
    repeat break_if; discriminate.
Qed.

(** X4: the constructor raises [IndexError] for the empty specification
    and [VariableInvalid] for every other specification it rejects. *)
Theorem Variable_init_raises (var_spec : string) (e : exn) :
  Variable_init var_spec = Raise e ->
  match var_spec with
  | EmptyString => e = IndexError
  | String _ _ => exists variable, e = VariableInvalid variable
  end.
Proof.
  destruct var_spec as [|c rest].
  - intros [= <-]. reflexivity.
  - rewrite Variable_init_unfold.
    change (Py.contains (Py.take 1 (String c rest)) Charset.VAR_START)
      with (Py.char_in c Charset.VAR_START).
    destruct (Py.char_in c Charset.VAR_START) eqn:Hc; cbn [negb].
    + destruct (before_default_nonempty c rest Hc) as [rest' ->].
      intros H. apply bind_Raise in H. destruct H as [H|([vs' self'] & _ & H)].
      * apply parse_modifier_raises in H. destruct H as [_ ->]. eauto.
      * destruct (scan_name vs' ""); [discriminate|]. injection H as <-. eauto.
    + intros [= <-]. eauto.
Qed.

Lemma Variable_init_raises_witness :
  Variable_init "a:0" = Raise (VariableInvalid "a:0")
  /\ exists variable, VariableInvalid "a:0" = VariableInvalid variable.
Proof.
  split; [reflexivity|].
  apply (Variable_init_raises "a:0"). reflexivity.
Defined.

Lemma Variable_init_grammar_witness :
  Variable_init "var%20x:012=d:e"
  = Ok (mkVariable "var%20x" 12 false false (Some "d:e")).
Proof.
  apply (proj2 (Variable_init_grammar "var%20x:012=d:e"
                  (mkVariable "var%20x" 12 false false (Some "d:e")))).
  exists "var%20x", (Prefix "012"), (Some "d:e").
  split; [split|]; [| |repeat split].
  - apply varname_char; [reflexivity|]. apply varname_char; [reflexivity|].
    apply varname_char; [reflexivity|]. apply varname_escape; [reflexivity..|].
    apply varname_char; [reflexivity|]. apply varname_empty.
  - exists "v"%char, "ar%20x". split; reflexivity.
Defined.

Lemma modifier_suffix_str (self : variable) :
  modifier_suffix self
  = (if max_length self =? 0 then "" else ":" ++ Py.str (max_length self))
    ++ (if explode self && negb (array self) then "*" else "")
    ++ (if array self then "[]" else "").
Proof.
  unfold modifier_suffix. destruct (array self), (explode self); reflexivity.
Qed.

Lemma well_formed_prefix_canonical (r : string) :
  well_formed_prefix r = true -> canonical_numeral r = no_leading_zero r.
Proof. destruct r; [discriminate | reflexivity]. Qed.

(** X5: the text that [VariableInvalid] carries.  When the first
    character is not a legal start character it is the whole
    specification; otherwise it is the specification without its
    default, provided the prefix length, if there is one, does not begin
    with the digit zero. *)
Theorem Variable_init_invalid_text (var_spec variable : string) :
  Variable_init var_spec = Raise (VariableInvalid variable) ->
  prefix_without_leading_zero var_spec ->
  variable = if legal_start var_spec then before_default var_spec else var_spec.
Proof.
  unfold legal_start. rewrite Variable_init_unfold. intros H Hzero.
  destruct (Py.contains (Py.take 1 var_spec) Charset.VAR_START) eqn:Hstart;
    cbn [negb] in H; [|now injection H].
  apply bind_Raise in H. destruct H as [H|([vs' self'] & Hm & H)].
  - destruct (before_default var_spec) as [|c rest] eqn:Hbd; [discriminate H|].
    apply parse_modifier_raises in H. destruct H as [_ H]. now injection H.
  - destruct (scan_name vs' ""); [discriminate|]. injection H as <-.
    rewrite modifier_suffix_str. apply (parse_modifier_str _ _ _ _ Hm).
    intros Hc. specialize (Hzero Hc).
    rewrite (parse_modifier_prefix _ _ Hc) in Hm.
    destruct (Py.split1 ":" (before_default var_spec)) as [l r]. cbn [snd] in *.
    destruct (well_formed_prefix r) eqn:Hw; [|discriminate Hm].
    now rewrite (well_formed_prefix_canonical r Hw).
Qed.

Lemma Variable_init_invalid_text_witness :
  Variable_init "a-b:12=x" = Raise (VariableInvalid "a-b:12")
  /\ Variable_init "a:" = Raise (VariableInvalid "a:")
  /\ "a-b:12" = (if legal_start "a-b:12=x" then before_default "a-b:12=x" else "a-b:12=x")
  /\ "a:" = (if legal_start "a:" then before_default "a:" else "a:").
Proof.
  split; [reflexivity|]. split; [reflexivity|]. split.
  - apply (Variable_init_invalid_text "a-b:12=x" "a-b:12"); [reflexivity|].
    intros _. reflexivity.
  - apply (Variable_init_invalid_text "a:" "a:"); [reflexivity|].
    intros _. reflexivity.
Defined.

(** ** [URITemplate]: the shape of a template *)

Lemma re_split_from_no_close (s : string) : forall text body,
  Py.contains "}" s = false ->
  re_split_from s text body
  = [text ++ match body with Some b => "{" ++ b | None => "" end ++ s].
Proof.
  induction s as [|c s IH]; intros text body H.
  - destruct body; simpl; now rewrite ?append_empty_r.
  - rewrite contains_char in H. apply orb_false_elim in H. destruct H as [Hc H].
    cbn [re_split_from]. destruct body as [b|].
    + rewrite Ascii.eqb_sym, Hc, (IH _ _ H). cbn [append].
      now rewrite !append_assoc.
    + destruct (Ascii.eqb c "{") eqn:Ho; rewrite (IH _ _ H).
      * apply Ascii.eqb_eq in Ho. subst c. reflexivity.
      * cbn [append]. now rewrite append_assoc.
Qed.

Lemma re_split_no_open (s : string) :
  Py.contains "{" s = false -> re_split s = [s].
Proof.
  intros H. unfold re_split. rewrite <- (append_empty_r s) at 1.
  now rewrite (re_split_from_text s "" "" H).
Qed.

Lemma last_not_in (x : ascii) (s : string) (l : ascii) :
  Py.contains (String x "") s = false -> Py.last s = Ok l -> Ascii.eqb x l = false.
Proof.
  intros H Hl. apply last_drop_last in Hl. rewrite Hl, contains_append in H.
  apply orb_false_elim in H. destruct H as [_ H].
  rewrite contains_char in H. now apply orb_false_elim in H.
Qed.

Lemma parse_part_no_braces (c : ascii) (rest : string) :
  Py.contains "{" (String c rest) = false \/ Py.contains "}" (String c rest) = false ->
  parse_part (String c rest)
  = if Py.contains "{" (String c rest) || Py.contains "}" (String c rest)
    then Raise (ExpansionInvalid (String c rest))
    else Ok (Some (Literal (String c rest))).
Proof.
  intros H. unfold parse_part.
  assert (Hb : and_then (Ascii.eqb "{" c)
                 (last <- Py.last (String c rest) ;; Ok (Ascii.eqb "}" last))
               = Ok false).
  { destruct (last_nonempty c rest) as [l Hl]. rewrite Hl. cbn [bind].
    destruct H as [H|H].
    - rewrite contains_char in H. apply orb_false_elim in H.
      destruct H as [-> _]. reflexivity.
    - rewrite (last_not_in "}" _ l H Hl). unfold and_then.
      now destruct (Ascii.eqb "{" c). }
  rewrite Hb. cbn [bind].
  destruct (Py.contains "{" (String c rest)), (Py.contains "}" (String c rest));
    reflexivity.
Qed.

(** X6: a template that lacks one of the two braces has one part.  It
    parses to no node when it is empty and to one literal when it has no
    brace at all; with a brace of one kind only it raises
    [ExpansionInvalid], which carries the whole template. *)
Theorem URITemplate_init_one_part (template : string) :
  Py.contains "{" template = false \/ Py.contains "}" template = false ->
  URITemplate_init template
  = if String.eqb template "" then Ok (mkURITemplate [])
    else if Py.contains "{" template || Py.contains "}" template
         then Raise (ExpansionInvalid template)
         else Ok (mkURITemplate [Literal template]).
Proof.
  intros H. unfold URITemplate_init.
  assert (Hs : re_split template = [template]).
  { destruct H as [H|H]; [now apply re_split_no_open|].
    unfold re_split. now rewrite (re_split_from_no_close _ "" None H). }
  rewrite Hs. destruct template as [|c rest]; [reflexivity|].
  cbn [parse_parts String.eqb]. rewrite (parse_part_no_braces c rest H).
  destruct (_ || _); reflexivity.
Qed.

Lemma URITemplate_init_one_part_witness :
  URITemplate_init "http://example.org/{x" = Raise (ExpansionInvalid "http://example.org/{x")
  /\ URITemplate_init "a}b" = Raise (ExpansionInvalid "a}b")
  /\ URITemplate_init "a/b" = Ok (mkURITemplate [Literal "a/b"]).
Proof.
  split; [|split].
  - apply (URITemplate_init_one_part "http://example.org/{x"). now right.
  - apply (URITemplate_init_one_part "a}b"). now left.
  - apply (URITemplate_init_one_part "a/b"). now left.
Defined.

Lemma parse_parts_acc (parts : list string) : forall acc,
  parse_parts parts acc = (r <- parse_parts parts [] ;; Ok (acc ++ r)%list).
Proof.
  induction parts as [|p ps IH]; intros acc; simpl.
  - now rewrite app_nil_r.
  - destruct (parse_part p) as [[e|]|x]; simpl; [|apply IH|reflexivity].
    rewrite (IH (acc ++ [e])%list), (IH [e]).
    destruct (parse_parts ps []) as [r|x]; simpl; [|reflexivity].
    now rewrite <- app_assoc.
Qed.

Lemma parse_part_text (pre : string) :
  Py.contains "{" pre = false ->
  parse_part pre
  = if Py.contains "}" pre then Raise (ExpansionInvalid pre)
    else Ok (match pre with
             | EmptyString => None
             | _ => Some (Literal pre)
             end).
Proof.
  intros H. destruct pre as [|c rest]; [reflexivity|].
  rewrite (parse_part_no_braces c rest (or_introl H)), H. reflexivity.
Qed.

(** X7: parsing goes from left to right.  For text without [{],
    followed by a directive and by the rest of the template: a [}] in
    the text raises [ExpansionInvalid] for the text; otherwise the
    directive is parsed, then the rest, and the nodes are those of the
    text, the directive and the rest, in this order. *)
Theorem URITemplate_init_step (pre body post : string) :
  Py.contains "{" pre = false -> Py.contains "}" body = false ->
  URITemplate_init (pre ++ directive body ++ post)
  = if Py.contains "}" pre then Raise (ExpansionInvalid pre)
    else
      e <- parse_expression (directive body) ;;
      t <- URITemplate_init post ;;
      Ok (mkURITemplate (literal_nodes pre ++ e :: expansions t)).
Proof.
  intros Hpre Hbody. unfold URITemplate_init.
  rewrite (re_split_directive pre body post Hpre Hbody).
  cbn [parse_parts]. rewrite (parse_part_text pre Hpre).
  destruct (Py.contains "}" pre); [reflexivity|]. cbn [bind].
  rewrite parse_part_directive.
  destruct (parse_expression (directive body)) as [e|x]; [|now destruct pre].
  cbn [bind].
  assert (Hacc : forall acc,
    parse_parts (re_split post) (acc ++ [e])
    = (expansions <- parse_parts (re_split post) [] ;;
       Ok (acc ++ e :: expansions)%list)).
  { intros acc. rewrite parse_parts_acc.
    destruct (parse_parts (re_split post) []); simpl; [|reflexivity].
    now rewrite <- app_assoc. }
  destruct pre as [|c rest]; cbn [literal_nodes app].
  - pose proof (Hacc []) as Hx. cbn [app] in Hx. rewrite Hx.
    destruct (parse_parts (re_split post) []); reflexivity.
  - pose proof (Hacc [Literal (String c rest)]) as Hx. cbn [app] in Hx. rewrite Hx.
    destruct (parse_parts (re_split post) []); reflexivity.
Qed.

Lemma URITemplate_init_step_witness :
  URITemplate_init "a{}b" = Raise (ExpansionInvalid "{}").
Proof.
  apply (URITemplate_init_step "a" "" "b"); reflexivity.
Defined.

(** A directive that no class takes. *)
Lemma parse_expression_unknown (body : string) :
  re_match_simple body = false -> no_operator body ->
  parse_expression (directive body) = Raise (ExpansionInvalid (directive body)).
Proof.
  intros Hre Hop. unfold parse_expression, directive.
  change (Py.drop 1 ("{" ++ body ++ "}")) with (body ++ "}").
  rewrite drop_last_append, Hre.
  destruct body as [|c rest]; [reflexivity|]. cbn in Hop.
  destruct c as [[] [] [] [] [] [] [] []]; try discriminate Hop; reflexivity.
Qed.

(** X8: a directive whose body does not match the pattern of the simple
    expansion and starts with none of the operators and none of the
    reserved characters raises [ExpansionInvalid], which carries the
    directive; so does the empty directive. *)
Theorem URITemplate_init_unknown_operator (pre body post : string) :
  Py.contains "{" pre = false -> Py.contains "}" pre = false ->
  Py.contains "}" body = false ->
  re_match_simple body = false -> no_operator body ->
  URITemplate_init (pre ++ directive body ++ post)
  = Raise (ExpansionInvalid (directive body)).
Proof.
  intros Ho Hc Hb Hre Hop. unfold URITemplate_init.
  rewrite (re_split_directive pre body post Ho Hb).
  change (pre :: directive body :: re_split post)
    with ([pre] ++ directive body :: re_split post)%list.
  rewrite (parse_parts_first_raise [pre] _ (re_split post)
             (ExpansionInvalid (directive body)) []); [reflexivity| |].
  - intros p [<-|[]]. now apply parse_part_literal.
  - rewrite parse_part_directive, (parse_expression_unknown body Hre Hop).
    reflexivity.
Qed.

Lemma URITemplate_init_unknown_operator_witness :
  URITemplate_init "/users/{%zz}" = Raise (ExpansionInvalid "{%zz}")
  /\ URITemplate_init "/users/{$id}/x" = Raise (ExpansionInvalid "{$id}").
Proof.
  split.
  - apply (URITemplate_init_unknown_operator "/users/" "%zz" ""); reflexivity.
  - apply (URITemplate_init_unknown_operator "/users/" "$id" "/x"); reflexivity.
Defined.

(** ** Exceptions that the template does not catch *)

Section Uncaught.

Variable Expansion_expand : Expansion -> Values -> Res (option string).
Variable Expansion_partial : Expansion -> Values -> Res string.

(** X9: an exception other than [ExpansionFailed] that a node raises
    (the nodes before it having returned) is not caught: [expand],
    [partial] and [expanded] raise it. *)
Theorem URITemplate_uncaught (self : URITemplate) (kwargs : Values) (x : exn) :
  x <> ExpansionFailed ->
  (first_raise (fun e => Expansion_expand e kwargs) (expansions self) x ->
   URITemplate_expand Expansion_expand self kwargs = Raise x)
  /\ (first_raise (fun e => Expansion_partial e kwargs) (expansions self) x ->
      URITemplate_partial Expansion_partial self kwargs = Raise x)
  /\ (first_raise (fun e => Expansion_expand e []) (expansions self) x ->
      URITemplate_expanded Expansion_expand self = Raise x).
Proof.
  intros Hx.
  unfold URITemplate_expanded, URITemplate_expand, URITemplate_partial.
  repeat split; intros H; apply comprehension_Raise in H; rewrite H;
    destruct x; try reflexivity; contradiction.
Qed.

End Uncaught.

Lemma URITemplate_uncaught_witness :
  URITemplate_expand (fun _ _ => Raise IndexError)
    (mkURITemplate [Literal "a"]) [] = Raise IndexError.
Proof.
  apply (proj1 (URITemplate_uncaught (fun _ _ => Raise IndexError)
                  (fun _ _ => Raise IndexError)
                  (mkURITemplate [Literal "a"]) [] IndexError
                  (fun H => ltac:(discriminate H)))).
  exists [], (Literal "a"), [], []. repeat split. constructor.
Defined.

(** ** [URITemplate.variables]: templates without repeated names *)

Lemma setitem_fresh {V : Type} (d : OrderedDict.t V) (k : string) (v : V) :
  ~ In k (OrderedDict.keys d) -> OrderedDict.setitem d k v = (d ++ [(k, v)])%list.
Proof.
  induction d as [|[k' v'] d IH]; simpl; intros H; [reflexivity|].
  destruct (String.eqb_spec k' k) as [->|_]; [tauto|].
  rewrite IH by tauto. reflexivity.
Qed.

Lemma fill_fresh (vs : list variable) : forall d,
  NoDup (map (fun v => name v) vs) ->
  (forall v, In v vs -> ~ In (name v) (OrderedDict.keys d)) ->
  fill d vs = (d ++ map (fun v => (name v, v)) vs)%list.
Proof.
  induction vs as [|v vs IH]; intros d Hnd Hd; simpl.
  - now rewrite app_nil_r.
  - inversion Hnd as [|? ? Hv Hvs]; subst.
    unfold fill in *. simpl.
    rewrite setitem_fresh by (apply Hd; now left).
    rewrite IH; [now rewrite <- app_assoc | assumption |].
    intros w Hw. unfold OrderedDict.keys. rewrite map_app, in_app_iff.
    intros [H|[H|[]]].
    + apply (Hd w); [now right | exact H].
    + simpl in H. apply Hv. rewrite H. now apply (in_map (fun v => name v)).
Qed.

(** X10: when no name occurs twice in a template, [variables] gives the
    specifications of the template as they stand, in the order of the
    text, and [variable_names] their names. *)
Theorem URITemplate_variables_distinct (self : URITemplate) :
  NoDup (map (fun v => name v) (all_variables self)) ->
  URITemplate_variables self = all_variables self
  /\ URITemplate_variable_names self = map (fun v => name v) (all_variables self).
Proof.
  intros H. unfold URITemplate_variable_names, URITemplate_variables.
  rewrite collect_variables_fill, (fill_fresh _ OrderedDict.empty H)
    by (intros v _ []).
  unfold OrderedDict.values, OrderedDict.empty. cbn [app].
  rewrite map_map. cbn [snd]. rewrite map_id. split; reflexivity.
Qed.

Lemma URITemplate_variables_distinct_witness :
  URITemplate_variables
    (mkURITemplate [Literal "/"; Expression SimpleExpansion
                                   [mkVariable "a" 0 false false None;
                                    mkVariable "b" 3 false false None]])
  = [mkVariable "a" 0 false false None; mkVariable "b" 3 false false None].
Proof.
  refine (proj1 (URITemplate_variables_distinct
                   (mkURITemplate [Literal "/"; Expression SimpleExpansion
                                    [mkVariable "a" 0 false false None;
                                     mkVariable "b" 3 false false None]]) _)).
  repeat constructor; simpl; intuition discriminate.
Defined.

(** ** [Variable]: the bounds of the prefix length *)

Lemma digit_value_bounds (c : ascii) :
  is_decimal_digit c = true -> 0 <= Py.digit_value c <= 9.
Proof.
  unfold is_decimal_digit, Py.digit_value. intros H.
  apply andb_prop in H. destruct H as [H1 H2].
  apply Nat.leb_le in H1, H2. lia.
Qed.

Lemma decimal_value_bounds (s : string) :
  all_chars is_decimal_digit s = true ->
  0 <= decimal_value s < 10 ^ Z.of_nat (String.length s).
Proof.
  induction s as [|c s IH]; intros H; [simpl; lia|].
  cbn [all_chars] in H. apply andb_prop in H. destruct H as [Hc Hs].
  specialize (IH Hs). pose proof (digit_value_bounds c Hc) as Hd.
  cbn [decimal_value String.length].
  rewrite Nat2Z.inj_succ, Z.pow_succ_r by lia.
  set (p := 10 ^ Z.of_nat (String.length s)) in *. nia.
Qed.

(** X11: the prefix length of a constructed [Variable] is at most 999,
    and it is 0 exactly when the specification, its default split off,
    has no [:]. *)
Theorem Variable_init_max_length (var_spec : string) (v : variable) :
  Variable_init var_spec = Ok v ->
  0 <= max_length v <= 999
  /\ (max_length v = 0 <-> Py.contains ":" (before_default var_spec) = false).
Proof.
  intros H. rewrite Variable_init_unfold in H.
  destruct (negb _); [discriminate|].
  apply bind_Ok in H. destruct H as ([vs' self'] & Hm & H).
  destruct (scan_name vs' ""); [|discriminate]. injection H as <-.
  cbn [set_name max_length].
  destruct (Py.contains ":" (before_default var_spec)) eqn:Hc.
  - rewrite (parse_modifier_prefix _ _ Hc) in Hm.
    destruct (Py.split1 ":" (before_default var_spec)) as [l r].
    destruct (well_formed_prefix r) eqn:Hw; [|discriminate].
    injection Hm as <- <-. cbn [set_max_length max_length].
    unfold well_formed_prefix in Hw.
    apply andb_prop in Hw. destruct Hw as [Hw Hz].
    apply andb_prop in Hw. destruct Hw as [Hw Hd].
    apply andb_prop in Hw. destruct Hw as [_ Hl].
    apply Nat.leb_le in Hl. apply negb_true_iff, Z.eqb_neq in Hz.
    pose proof (decimal_value_bounds r Hd) as Hb.
    assert (10 ^ Z.of_nat (String.length r) <= 10 ^ 3)
      by (apply Z.pow_le_mono_r; lia).
    split; [lia|]. split; [contradiction | discriminate].
  - unfold parse_modifier in Hm. rewrite Hc in Hm.
    apply bind_Ok in Hm. destruct Hm as (c & _ & Hm).
    repeat break_if; injection Hm as <- <-; cbn; repeat split; lia.
Qed.

Lemma Variable_init_max_length_witness :
  0 <= max_length (mkVariable "a" 999 false false None) <= 999.
Proof.
  apply (Variable_init_max_length "a:999"). reflexivity.
Defined.
